(** * The generative user clone (user_clone.py): model and properties

    A shallow embedding of [GenerativeUserClone]: the lexical rules
    ([is_simple_greeting], [classify_input_type], [is_very_similar]), the
    reuse policy, the retrieval scan, the style applier, the template
    generator with its multi-clause recursion, and the learning path.

    Texts are strings of 8-bit characters read as the code points
    U+0000..U+00FF; on that range [str.lower], [str.strip] and the regular
    expression classes [\w] and [\s] are the ones defined below.
    Distances are binary64 floats, as in Python and numpy.  scikit-learn
    and the random source are collaborators outside the repository: the
    first is an interface ([Sklearn]), the second an explicit sequence of
    raw draws threaded through the calls. *)

From Stdlib Require Import Bool List Arith Lia NArith Ascii String PrimFloat.
From Stdlib Require Import Permutation Sorted.
Import ListNotations.

Set Warnings "-inexact-float".
Set Implicit Arguments.

#[local] Open Scope string_scope.
#[local] Open Scope bool_scope.

(* ================================================================== *)
(** ** Python string operations *)
(* ================================================================== *)

Module Py.

Definition code (c : ascii) : N := N_of_ascii c.

Definition between (lo hi n : N) : bool := ((lo <=? n) && (n <=? hi))%N.

(** [str.lower] on one character: A-Z and the upper-case letters of the
    Latin-1 supplement move by 32, everything else stays. *)
Definition lower_char (c : ascii) : ascii :=
  let n := code c in
  if between 65 90 n || between 192 214 n || between 216 222 n
  then ascii_of_N (n + 32) else c.

(** [str.isspace], also the class [\s] of [re] on [str] patterns. *)
Definition isspace (c : ascii) : bool :=
  let n := code c in
  between 9 13 n || between 28 32 n || (n =? 133)%N || (n =? 160)%N.

(** The class [\w] of [re] on [str] patterns: alphanumerics and [_]. *)
Definition isword (c : ascii) : bool :=
  let n := code c in
  between 48 57 n || between 65 90 n || (n =? 95)%N || between 97 122 n
  || (n =? 170)%N || between 178 179 n || (n =? 181)%N || between 185 186 n
  || between 188 190 n || between 192 214 n || between 216 246 n
  || between 248 255 n.

Fixpoint lower (s : string) : string :=
  match s with
  | EmptyString => EmptyString
  | String c s' => String (lower_char c) (lower s')
  end.

Fixpoint lstrip (s : string) : string :=
  match s with
  | EmptyString => EmptyString
  | String c s' => if isspace c then lstrip s' else s
  end.

(** [s.rstrip(chars)]: drop every trailing character satisfying [p]. *)
Fixpoint rstrip_with (p : ascii -> bool) (s : string) : string :=
  match s with
  | EmptyString => EmptyString
  | String c s' =>
      match rstrip_with p s' with
      | EmptyString => if p c then EmptyString else String c EmptyString
      | r => String c r
      end
  end.

(** [s.strip()] *)
Definition strip (s : string) : string := lstrip (rstrip_with isspace s).

(** [s.startswith(pre)] *)
Fixpoint startswith (s pre : string) {struct pre} : bool :=
  match pre with
  | EmptyString => true
  | String a pre' =>
      match s with
      | EmptyString => false
      | String b s' => Ascii.eqb a b && startswith s' pre'
      end
  end.

(** [s.endswith(suf)] *)
Fixpoint endswith (s suf : string) : bool :=
  String.eqb s suf
  || match s with
     | EmptyString => false
     | String _ s' => endswith s' suf
     end.

(** [sub in s] *)
Fixpoint contains (sub s : string) : bool :=
  startswith s sub
  || match s with
     | EmptyString => false
     | String _ s' => contains sub s'
     end.

(** [any(w in s for w in words)] *)
Definition any_in (words : list string) (s : string) : bool :=
  existsb (fun w => contains w s) words.

(** [s in words] for a set of strings *)
Definition member (s : string) (words : list string) : bool :=
  existsb (String.eqb s) words.

(** [s.split(sep)] for a non-empty separator: the pieces between the
    non-overlapping occurrences of [sep], scanned from the left.  [skip]
    counts the characters of a separator that are still to be dropped. *)
Fixpoint split_from (sep : string) (skip : nat) (s : string) : list string :=
  match s with
  | EmptyString => [EmptyString]
  | String c s' =>
      match skip with
      | S k => split_from sep k s'
      | O =>
          if startswith s sep
          then EmptyString :: split_from sep (String.length sep - 1) s'
          else match split_from sep 0 s' with
               | piece :: rest => String c piece :: rest
               | [] => [String c EmptyString]
               end
      end
  end.

Definition split (s sep : string) : list string := split_from sep 0 s.

(** [s.replace(old, new, count)] for a non-empty [old]; [count = None] is
    Python's default (replace every occurrence). *)
Fixpoint replace_from (old new : string) (count : option nat) (skip : nat)
    (s : string) : string :=
  match s with
  | EmptyString => EmptyString
  | String c s' =>
      match skip with
      | S k => replace_from old new count k s'
      | O =>
          let allowed := match count with Some O => false | _ => true end in
          if allowed && startswith s old
          then new ++ replace_from old new (option_map Nat.pred count)
                                   (String.length old - 1) s'
          else String c (replace_from old new count 0 s')
      end
  end.

Definition replace (s old new : string) (count : option nat) : string :=
  replace_from old new count 0 s.

(** [re.sub(r'[^\w\s]', '', s)] *)
Fixpoint strip_punctuation (s : string) : string :=
  match s with
  | EmptyString => EmptyString
  | String c s' =>
      if isword c || isspace c then String c (strip_punctuation s')
      else strip_punctuation s'
  end.

(** Truth value of a string: empty is false. *)
Definition truthy (s : string) : bool :=
  match s with EmptyString => false | _ => true end.

(** [sep.join(parts)] *)
Definition join (sep : string) (parts : list string) : string :=
  String.concat sep parts.

(** [template.format(a, b, ...)] for templates whose only fields are [{}]. *)
Fixpoint format (template : string) (args : list string) : string :=
  match template with
  | String "{" (String "}" rest) =>
      match args with
      | a :: args' => a ++ format rest args'
      | [] => format rest []
      end
  | String c rest => String c (format rest args)
  | EmptyString => EmptyString
  end.

(** [s.split()]: the maximal runs of characters that are not white space.
    [inword] tells whether the character before [s] belongs to a word. *)
Fixpoint words_from (inword : bool) (s : string) : list string :=
  match s with
  | EmptyString => if inword then [EmptyString] else []
  | String c s' =>
      if isspace c
      then if inword then EmptyString :: words_from false s'
           else words_from false s'
      else match words_from true s' with
           | w :: ws => String c w :: ws
           | [] => [String c EmptyString]
           end
  end.

Definition split_whitespace (s : string) : list string := words_from false s.

End Py.

(* ================================================================== *)
(** ** Collaborators: scikit-learn and the random source *)
(* ================================================================== *)

(** What the clone uses of [TfidfVectorizer] and [NearestNeighbors].  The
    fitting methods update the estimator in place and may raise, so they
    return the estimator afterwards together with the outcome ([None] or
    [false] when an exception was raised).  [kneighbors] gives
    [distances[0][0]] and [indices[0][0]]. *)
Class Sklearn : Type := {
  Vectorizer : Type;
  KnnModel : Type;
  Matrix : Type;
  fit_transform : Vectorizer -> list string -> Vectorizer * option Matrix;
  transform : Vectorizer -> list string -> option Matrix;
  fit : KnnModel -> Matrix -> KnnModel * bool;
  kneighbors : KnnModel -> Matrix -> option (float * nat)
}.

(** The state of [random]: the raw draws still to come. *)
Definition Random : Type := nat -> nat.

(** [random.choice(seq)] is [seq[_randbelow(len(seq))]]; every call site
    passes a non-empty literal list. *)
Definition random_choice (rng : Random) (seq : list string) : string * Random :=
  (nth (rng 0 mod List.length seq) seq EmptyString, fun n => rng (S n)).

(* ================================================================== *)
(** ** The clone *)
(* ================================================================== *)

(** The [styles] dictionary built by [analyze_user_style]. *)
Record Styles : Type := {
  common_words : list (string * nat);
  response_length : nat;
  punctuation_style : string;
  formality_level : string;
  common_starters : list string;
  common_enders : list string
}.

Section Clone.

Context {sk : Sklearn}.

(** The four files under [model_dir]; [None] is a missing file. *)
Record ModelDir : Type := {
  vectorizer_joblib : option Vectorizer;
  knn_model_joblib : option KnnModel;
  conversations_joblib : option (list (string * string));
  user_style_joblib : option (option Styles)
}.

(** The attributes of a [GenerativeUserClone]; [user_style = None] is the
    empty dictionary. *)
Record GenerativeUserClone : Type := {
  model_dir : ModelDir;
  vectorizer : option Vectorizer;
  knn_model : option KnnModel;
  conversations : list (string * string);
  models_loaded : bool;
  user_style : option Styles
}.

Definition set_vectorizer (self : GenerativeUserClone) v :=
  {| model_dir := model_dir self; vectorizer := v;
     knn_model := knn_model self; conversations := conversations self;
     models_loaded := models_loaded self; user_style := user_style self |}.

Definition set_knn_model (self : GenerativeUserClone) k :=
  {| model_dir := model_dir self; vectorizer := vectorizer self;
     knn_model := k; conversations := conversations self;
     models_loaded := models_loaded self; user_style := user_style self |}.

Definition set_conversations (self : GenerativeUserClone) c :=
  {| model_dir := model_dir self; vectorizer := vectorizer self;
     knn_model := knn_model self; conversations := c;
     models_loaded := models_loaded self; user_style := user_style self |}.

Definition set_models_loaded (self : GenerativeUserClone) b :=
  {| model_dir := model_dir self; vectorizer := vectorizer self;
     knn_model := knn_model self; conversations := conversations self;
     models_loaded := b; user_style := user_style self |}.

Definition set_user_style (self : GenerativeUserClone) u :=
  {| model_dir := model_dir self; vectorizer := vectorizer self;
     knn_model := knn_model self; conversations := conversations self;
     models_loaded := models_loaded self; user_style := u |}.

Definition set_model_dir (self : GenerativeUserClone) d :=
  {| model_dir := d; vectorizer := vectorizer self;
     knn_model := knn_model self; conversations := conversations self;
     models_loaded := models_loaded self; user_style := user_style self |}.

(** [GenerativeUserClone(model_dir)] *)
Definition init (d : ModelDir) : GenerativeUserClone :=
  {| model_dir := d; vectorizer := None; knn_model := None;
     conversations := []; models_loaded := false; user_style := None |}.

(** [joblib.dump] of the three artifacts that learning writes. *)
Definition dump_retrieval (d : ModelDir) v k c : ModelDir :=
  {| vectorizer_joblib := Some v; knn_model_joblib := Some k;
     conversations_joblib := Some c;
     user_style_joblib := user_style_joblib d |}.

(** [load_models]: a missing vectorizer file gives [False] at once; a
    later missing file makes [joblib.load] raise, which is caught after
    the earlier attributes have been assigned. *)
Definition load_models (self : GenerativeUserClone) : GenerativeUserClone * bool :=
  match vectorizer_joblib (model_dir self) with
  | None => (self, false)
  | Some v =>
      let self := set_vectorizer self (Some v) in
      match knn_model_joblib (model_dir self) with
      | None => (self, false)
      | Some k =>
          let self := set_knn_model self (Some k) in
          match conversations_joblib (model_dir self) with
          | None => (self, false)
          | Some c =>
              let self := set_conversations self c in
              match user_style_joblib (model_dir self) with
              | None => (self, false)
              | Some u =>
                  (set_models_loaded (set_user_style self u) true, true)
              end
          end
      end
  end.

(** [learn_from_chat]; an exception of the re-fit is caught and leaves
    the later steps undone; the three writes are taken to succeed. *)
Definition learn_from_chat (self : GenerativeUserClone)
    (user_input user_response : string) (was_correct : bool)
    : GenerativeUserClone :=
  if was_correct then
    let self :=
      set_conversations self
        (conversations self ++ [(user_input, user_response)]) in
    match vectorizer self, knn_model self with
    | Some v, Some k =>
        let all_inputs := map fst (conversations self) in
        let (v', X) := fit_transform v all_inputs in
        let self := set_vectorizer self (Some v') in
        match X with
        | None => self
        | Some X =>
            let (k', fitted) := fit k X in
            let self := set_knn_model self (Some k') in
            if fitted
            then set_model_dir self
                   (dump_retrieval (model_dir self) v' k' (conversations self))
            else self
        end
    | _, _ => self
    end
  else self.

(** [analyze_user_style], the punctuation analysis: the class of one
    response, and the most frequent class over all responses.  Python's
    [max(set(punctuations), key=punctuations.count)] keeps the first
    maximal element in the iteration order of the set, which depends on
    the interpreter's string hashing; [iteration] is that order. *)
Definition punctuation_of (response : string) : string :=
  if Py.contains "!" response then "excited"
  else if Py.contains "..." response || Py.contains ".." response
  then "thoughtful"
  else if Py.endswith response "." then "neutral"
  else "casual".

Fixpoint max_by_count (punctuations : list string) (best : string)
    (rest : list string) : string :=
  match rest with
  | [] => best
  | x :: rest' =>
      if Nat.ltb (count_occ string_dec punctuations best)
                 (count_occ string_dec punctuations x)
      then max_by_count punctuations x rest'
      else max_by_count punctuations best rest'
  end.

Definition analyze_punctuation_style (iteration responses : list string)
    : string :=
  let punctuations := map punctuation_of responses in
  match iteration with
  | [] => "neutral"
  | first :: rest => max_by_count punctuations first rest
  end.

(** [is_simple_greeting] *)
Definition simple_greetings : list string :=
  ["hi"; "hello"; "hey"; "hy"; "helo"; "yo"; "sup";
   "hi!"; "hello!"; "hey!"; "hi."; "hello."; "hey.";
   "hii"; "helloo"; "heyy"].

Definition is_simple_greeting (user_input : string) : bool :=
  let user_input_lower := Py.strip (Py.lower user_input) in
  if Py.member user_input_lower simple_greetings then true
  else if Nat.leb (String.length user_input_lower) 5
          && Py.any_in ["hi"; "hey"; "hello"] user_input_lower then true
  else false.

(** [should_use_personal_response] *)
Definition question_words : list string :=
  ["what"; "how"; "why"; "when"; "where"; "which"; "who"; "?"].

Definition should_use_personal_response (user_input : string)
    (similarity_score : float) : bool :=
  if is_simple_greeting user_input then false
  else
    let user_input_lower := Py.lower user_input in
    if Py.any_in question_words user_input_lower
    then (similarity_score <? 0.6)%float
    else (similarity_score <? 0.8)%float.

(** [is_very_similar] *)
Definition is_very_similar (input1 input2 : string) : bool :=
  let input1_clean := Py.strip_punctuation input1 in
  let input2_clean := Py.strip_punctuation input2 in
  if String.eqb input1_clean input2_clean then true
  else if Py.contains input1_clean input2_clean
          || Py.contains input2_clean input1_clean then true
  else false.

(** [find_retrieval_response]; the first component is [None] for Python's
    [None].  Every exception of the second strategy (no vectorizer, a
    raising [transform] or [kneighbors], an index outside the corpus) is
    swallowed by the bare [except]. *)
Definition find_retrieval_response (self : GenerativeUserClone)
    (user_input : string) : option string * string * float :=
  let user_input_lower := Py.strip (Py.lower user_input) in
  match find (fun conv => is_very_similar user_input_lower (Py.lower (fst conv)))
             (conversations self) with
  | Some (_, resp) => (Some resp, "personal", 0%float)
  | None =>
      let no_match := (None, "no_match", 1%float) in
      match vectorizer self, knn_model self with
      | Some v, Some k =>
          match transform v [user_input] with
          | Some input_vec =>
              match kneighbors k input_vec with
              | Some (similarity_score, best_match_idx) =>
                  match nth_error (conversations self) best_match_idx with
                  | Some (_, resp) =>
                      (Some resp, "similar_personal", similarity_score)
                  | None => no_match
                  end
              | None => no_match
              end
          | None => no_match
          end
      | _, _ => no_match
      end
  end.

(** [classify_input_type] *)
Definition status_words : list string :=
  ["good"; "fine"; "ok"; "okay"; "great"; "awesome"; "excellent"; "well"].
Definition minimal_words : list string :=
  ["nothing"; "not much"; "nm"; "same"; "idk"; "don't know"; "nothing much"].
Definition food_words : list string :=
  ["eat"; "ate"; "eating"; "food"; "hungry"; "meal"].
Definition life_words : list string :=
  ["life"; "living"; "existence"; "world"].
Definition attention_words : list string :=
  ["listen"; "listening"; "hear"; "paying attention"].
Definition personal_questions : list string :=
  ["you"; "your"; "yourself"].
Definition agreement_words : list string :=
  ["yes"; "yeah"; "yep"; "sure"; "right"; "true"; "correct"; "ok"].
Definition thanks_words : list string :=
  ["thanks"; "thank you"; "thx"; "ty"].

Definition classify_input_type (user_input : string) : string :=
  let user_input_lower := Py.strip (Py.lower user_input) in
  if is_simple_greeting user_input then "greeting"
  else if Py.any_in status_words user_input_lower then "status_update"
  else if Py.any_in minimal_words user_input_lower then "minimal_response"
  else if Py.any_in food_words user_input_lower then "food_related"
  else if Py.any_in life_words user_input_lower then "life_question"
  else if Py.any_in attention_words user_input_lower then "attention_check"
  else if Py.contains "?" user_input_lower then
    if Py.any_in personal_questions user_input_lower
    then "question_personal" else "question_factual"
  else if Py.any_in agreement_words user_input_lower then "agreement"
  else if Py.any_in thanks_words user_input_lower then "thanks"
  else "casual_statement".

(** [apply_user_style]: the punctuation pass, then the formality pass. *)
Definition punctuation_pass (punctuation_style response : string) : string :=
  if String.eqb punctuation_style "excited"
     && negb (Py.endswith response "!")
  then Py.rstrip_with (Ascii.eqb ".") response ++ "!"
  else if String.eqb punctuation_style "thoughtful"
          && negb (Py.any_in ["."; "!"; "?"] response)
  then response ++ "..."
  else if String.eqb punctuation_style "casual"
          && Py.endswith response "."
  then Py.rstrip_with (Ascii.eqb ".") response
  else response.

Definition formality_pass (formality response : string) : string :=
  if String.eqb formality "casual" then
    let response :=
      if Py.startswith response "Hello"
      then Py.replace response "Hello" "Hey" (Some 1) else response in
    if Py.contains "How are you" response
    then Py.replace response "How are you" "How are ya" None else response
  else response.

Definition apply_user_style (self : GenerativeUserClone)
    (response user_input : string) : string :=
  match user_style self with
  | None => response
  | Some styles =>
      let response := punctuation_pass (punctuation_style styles) response in
      formality_pass (formality_level styles) response
  end.

(** [combine_responses] *)
Definition connectors : list string :=
  ["{} and also {}"; "{}, and {}"; "Well, {} plus {}";
   "{} - and to add to that, {}"; "{}. Also, {}"].

Definition combine_responses (responses : list string) (rng : Random)
    : string * Random :=
  match responses with
  | [r0; r1] =>
      let (connector, rng) := random_choice rng connectors in
      (Py.format connector [r0; r1], rng)
  | _ => (Py.join ". " responses ++ ".", rng)
  end.

(** The table [response_templates] of [generate_creative_response]. *)
Definition greeting_templates : list string :=
  ["Hey there! How's it going?"; "Hi! Nice to see you!";
   "Hello! What's new?"; "Hey! How are you doing?";
   "Hi there! How can I help you today?"; "Hello! Great to talk to you!";
   "Hey! What's on your mind?"; "Hi! How's your day going?"].

Definition casual_statement_templates : list string :=
  ["I see what you mean!"; "That makes sense!"; "Interesting point!";
   "I get what you're saying."; "That's a good way to look at it!";
   "I understand where you're coming from.";
   "Cool! Tell me more about that."; "Nice! What else is new?"].

Definition response_templates : list (string * list string) :=
  [("greeting", greeting_templates);
   ("status_update",
    ["That's great to hear!"; "Awesome! What have you been up to?";
     "Nice! How's everything else going?"; "Glad to hear that!";
     "That's wonderful! Anything new?"; "Cool! What's happening with you?"]);
   ("minimal_response",
    ["I see!"; "Okay, cool!"; "No worries!"; "That's fine!";
     "Alright then!"; "Sounds good to me!"; "Got it!"; "No problem!"]);
   ("food_related",
    ["Nice! What did you have to eat?"; "Sounds good! I hope it was tasty!";
     "Food is always great! What was your favorite part?";
     "Yum! I'm getting hungry just thinking about food!";
     "Good to hear you ate! Was it delicious?"]);
   ("life_question",
    ["Life is pretty interesting these days!";
     "Life has its ups and downs, but overall it's good!";
     "I think life is what you make of it!";
     "Life is full of surprises, don't you think?";
     "I'm enjoying life! How about you?"]);
   ("attention_check",
    ["Yes, I'm listening! What's up?"; "I'm here and paying attention!";
     "Of course I'm listening! Go ahead.";
     "Yes, I hear you! What would you like to talk about?";
     "I'm all ears! What's on your mind?"]);
   ("question_personal",
    ["That's an interesting question! What do you think?";
     "I'm not sure about that myself. What's your opinion?";
     "That's something worth thinking about!";
     "I'm still learning about that. What's your perspective?";
     "That's a great question! I'd love to know your thoughts too."]);
   ("question_factual",
    ["From what I know, it's quite fascinating.";
     "I believe there are different perspectives on that.";
     "Based on what I've learned, it's an interesting topic.";
     "I think that depends on how you look at it.";
     "In my understanding, it's something worth exploring."]);
   ("agreement",
    ["I agree!"; "That's right!"; "Exactly what I was thinking!";
     "You've got a point there!"; "I think so too!"; "Definitely!";
     "Absolutely!"; "For sure!"]);
   ("thanks",
    ["You're welcome!"; "No problem at all!"; "Happy to help!"; "Anytime!";
     "Of course! Glad I could help!"]);
   ("casual_statement", casual_statement_templates)].

(** [d.get(key, default)] *)
Definition dict_get (d : list (string * list string)) (key : string)
    (default : list string) : list string :=
  match find (fun kv => String.eqb (fst kv) key) d with
  | Some (_, v) => v
  | None => default
  end.

(** *** The multi-clause recursion

    [generate_creative_response] calls [handle_multiple_questions], which
    calls [find_single_response] on every clause, which calls
    [generate_creative_response] again.  The two inner functions are
    written over the recursive call [generate]; the fuel of
    [generate_creative_response] bounds the nesting depth of its calls,
    and [None] means that the fuel ran out. *)

Definition Generate : Type := string -> Random -> option (string * Random).

(** [find_single_response]; a retrieved response that is [None] or the
    empty string is false in [personal_response and ...]. *)
Definition find_single_response_in (generate : Generate)
    (self : GenerativeUserClone) (user_input : string) (rng : Random)
    : option (string * Random) :=
  let '(personal_response, _, similarity_score) :=
    find_retrieval_response self user_input in
  match personal_response with
  | Some r =>
      if Py.truthy r
         && should_use_personal_response user_input similarity_score
      then Some (r, rng)
      else generate user_input rng
  | None => generate user_input rng
  end.

(** The loop [for part in parts] of [handle_multiple_questions]. *)
Fixpoint answer_parts (single : Generate) (parts responses : list string)
    (rng : Random) : option (list string * Random) :=
  match parts with
  | [] => Some (responses, rng)
  | part :: parts' =>
      let part := Py.strip part in
      if Py.truthy part && Nat.ltb 3 (String.length part) then
        match single part rng with
        | None => None
        | Some (response, rng) =>
            answer_parts single parts'
              (if Py.truthy response then responses ++ [response]
               else responses) rng
        end
      else answer_parts single parts' responses rng
  end.

(** [handle_multiple_questions]; the inner [None] is Python's [None]. *)
Definition conjunctions : list string :=
  [" and "; " also "; " plus "; " furthermore "; " moreover "].

Definition handle_multiple_questions_in (generate : Generate)
    (self : GenerativeUserClone) (user_input : string) (rng : Random)
    : option (option string * Random) :=
  let user_input_lower := Py.lower user_input in
  let has_multiple := Py.any_in conjunctions user_input_lower in
  if negb has_multiple then Some (None, rng)
  else
    match
      (if Py.contains " and " user_input_lower
       then answer_parts (find_single_response_in generate self)
              (Py.split user_input " and ") [] rng
       else Some ([], rng))
    with
    | None => None
    | Some (responses, rng) =>
        if Nat.ltb 1 (List.length responses)
        then let (combined, rng) := combine_responses responses rng in
             Some (Some combined, rng)
        else Some (None, rng)
    end.

(** [generate_creative_response] *)
Fixpoint generate_creative_response (fuel : nat) (self : GenerativeUserClone)
    (user_input : string) (rng : Random) : option (string * Random) :=
  match fuel with
  | O => None
  | S fuel' =>
      match handle_multiple_questions_in
              (generate_creative_response fuel' self) self user_input rng with
      | None => None
      | Some (multi_response, rng) =>
          let input_type := classify_input_type user_input in
          let templates :=
            dict_get response_templates input_type
                     casual_statement_templates in
          let (response, rng') := random_choice rng templates in
          let templated :=
            Some (apply_user_style self response user_input, rng') in
          match multi_response with
          | Some r => if Py.truthy r then Some (r, rng) else templated
          | None => templated
          end
      end
  end.

Definition handle_multiple_questions (fuel : nat) (self : GenerativeUserClone)
    : string -> Random -> option (option string * Random) :=
  handle_multiple_questions_in (generate_creative_response fuel self) self.

Definition find_single_response (fuel : nat) (self : GenerativeUserClone)
    : Generate :=
  find_single_response_in (generate_creative_response fuel self) self.

(** [generate_response]: the answer, the clone afterwards ([load_models]
    may have assigned attributes) and the random state. *)
Definition not_trained : string := "Please train the model first (option 2).".

Definition generate_response (fuel : nat) (self : GenerativeUserClone)
    (user_input : string) (rng : Random)
    : option (string * GenerativeUserClone * Random) :=
  let (self, ready) :=
    if models_loaded self then (self, true) else load_models self in
  if negb ready then Some (not_trained, self, rng)
  else
    let creative :=
      match generate_creative_response fuel self user_input rng with
      | Some (r, rng) => Some (r, self, rng)
      | None => None
      end in
    match conversations self with
    | [] => creative
    | _ :: _ =>
        if is_simple_greeting user_input then creative
        else
          let '(personal_response, match_type, similarity_score) :=
            find_retrieval_response self user_input in
          match personal_response with
          | Some r =>
              if Py.truthy r
                 && should_use_personal_response user_input similarity_score
              then Some (r, self, rng)
              else creative
          | None => creative
          end
    end.

End Clone.

(* ================================================================== *)
(** ** Training *)
(* ================================================================== *)

(** [Counter(words)]: the words with their counts, in the order of their
    first occurrence. *)
Fixpoint counter_add (word : string) (counts : list (string * nat))
    : list (string * nat) :=
  match counts with
  | [] => [(word, 1)]
  | (key, n) :: rest =>
      if String.eqb key word then (key, S n) :: rest
      else (key, n) :: counter_add word rest
  end.

Definition Counter (words : list string) : list (string * nat) :=
  fold_left (fun counts word => counter_add word counts) words [].

(** [Counter.most_common(n)]: the [n] first items by decreasing count,
    items of equal count in their order of first occurrence. *)
Fixpoint insert_by_count (item : string * nat) (sorted : list (string * nat))
    : list (string * nat) :=
  match sorted with
  | [] => [item]
  | other :: rest =>
      if Nat.ltb (snd item) (snd other)
      then other :: insert_by_count item rest
      else item :: other :: rest
  end.

Definition most_common (n : nat) (counts : list (string * nat))
    : list (string * nat) :=
  firstn n (fold_right insert_by_count [] counts).

Definition formal_words : list string :=
  ["however"; "therefore"; "furthermore"; "moreover"; "thus"].
Definition casual_words : list string :=
  ["lol"; "haha"; "omg"; "btw"; "imo"; "hey"; "hi"; "yo"].

(** [sum(1 for word in words if word in vocabulary)] *)
Definition count_in (vocabulary words : list string) : nat :=
  List.length (filter (fun word => Py.member word vocabulary) words).

Section Training.

Context {sk : Sklearn}.

(** What training takes from outside the repository: the two estimators
    as their constructors give them ([TfidfVectorizer(max_features=100,
    stop_words='english', ngram_range=(1, 2))] and
    [NearestNeighbors(n_neighbors=3, metric='cosine')]), numpy's mean
    followed by [int], and the order in which the interpreter iterates over
    the set of a list of strings. *)
Record Runtime : Type := {
  TfidfVectorizer : Vectorizer;
  NearestNeighbors : KnnModel;
  int_mean : list nat -> nat;
  set_order : list string -> list string
}.

(** [analyze_user_style] *)
Definition analyze_user_style (env : Runtime) (self : GenerativeUserClone)
    (responses : list string) : GenerativeUserClone :=
  match responses with
  | [] => set_user_style self None
  | _ :: _ =>
      let words_of := map (fun response =>
                             Py.split_whitespace (Py.lower response))
                          responses in
      let all_words := List.concat words_of in
      let lengths := map (@List.length string) words_of in
      let punctuations := map punctuation_of responses in
      let several := filter (fun words => Nat.ltb 1 (List.length words))
                            words_of in
      let formal_count := count_in formal_words all_words in
      let casual_count := count_in casual_words all_words in
      set_user_style self
        (Some
           {| common_words := most_common 10 (Counter all_words);
              response_length := int_mean env lengths;
              punctuation_style :=
                analyze_punctuation_style (set_order env punctuations)
                                          responses;
              formality_level :=
                if Nat.ltb casual_count formal_count then "formal"
                else if Nat.ltb formal_count casual_count then "casual"
                else "neutral";
              common_starters :=
                map (fun words => hd EmptyString words) several;
              common_enders :=
                map (fun words => last words EmptyString) several |})
  end.

(** [joblib.dump] of the four artifacts that training writes. *)
Definition dump_all v k c (u : option Styles) : ModelDir :=
  {| vectorizer_joblib := Some v; knn_model_joblib := Some k;
     conversations_joblib := Some c; user_style_joblib := Some u |}.

(** [train]: the clone afterwards, and whether the call ran to its end.
    Nothing catches an exception of the two fits: the attributes assigned
    so far stay, nothing is written and [models_loaded] is not set. *)
Definition train (env : Runtime) (self : GenerativeUserClone)
    (inputs responses : list string) : GenerativeUserClone * bool :=
  let self := set_conversations self (combine inputs responses) in
  let self := analyze_user_style env self responses in
  let (v, X) := fit_transform (TfidfVectorizer env) inputs in
  let self := set_vectorizer self (Some v) in
  match X with
  | None => (self, false)
  | Some X =>
      let (k, fitted) := fit (NearestNeighbors env) X in
      let self := set_knn_model self (Some k) in
      if fitted
      then (set_models_loaded
              (set_model_dir self
                 (dump_all v k (conversations self) (user_style self)))
              true,
            true)
      else (self, false)
  end.

End Training.

(* ================================================================== *)
(** ** The data collector (data_collector.py) *)
(* ================================================================== *)

Module DataCollector.

(** One entry of the collector's list. *)
Record Conversation : Type := {
  timestamp : string;
  input : string;
  response : string;
  response_length : nat;
  is_question : bool
}.

(** A [SimpleDataCollector]: the content of [data_file] ([None] when the
    file does not exist) and the list in memory. *)
Record SimpleDataCollector : Type := {
  data_file : option (list Conversation);
  conversations : list Conversation
}.

(** [load_data]: a missing file gives the empty list. *)
Definition load_data (file : option (list Conversation)) : list Conversation :=
  match file with
  | Some entries => entries
  | None => []
  end.

(** [SimpleDataCollector(data_file)] *)
Definition init (file : option (list Conversation)) : SimpleDataCollector :=
  {| data_file := file; conversations := load_data file |}.

(** [save_data] *)
Definition save_data (self : SimpleDataCollector) : SimpleDataCollector :=
  {| data_file := Some (conversations self);
     conversations := conversations self |}.

(** [add_conversation]; [now] is [str(datetime.datetime.now())]. *)
Definition add_conversation (now : string) (self : SimpleDataCollector)
    (user_input user_response : string) : SimpleDataCollector :=
  let conversation :=
    {| timestamp := now;
       input := user_input;
       response := user_response;
       response_length := List.length (Py.split_whitespace user_response);
       is_question := Py.contains "?" user_input |} in
  save_data
    {| data_file := data_file self;
       conversations := (conversations self ++ [conversation])%list |}.

(** [get_training_data] *)
Definition get_training_data (self : SimpleDataCollector)
    : list string * list string :=
  (map input (conversations self), map response (conversations self)).

End DataCollector.

(* ================================================================== *)
(** ** Vocabulary of the specification *)
(* ================================================================== *)

(** Every character of [s] satisfies [p]. *)
Fixpoint all_chars (p : ascii -> bool) (s : string) : bool :=
  match s with
  | EmptyString => true
  | String c s' => p c && all_chars p s'
  end.

(** The characters of [s] that are not white space, in order. *)
Fixpoint nonspace (s : string) : string :=
  match s with
  | EmptyString => EmptyString
  | String c s' =>
      if Py.isspace c then nonspace s' else String c (nonspace s')
  end.

(** Empty or white space only. *)
Definition whitespace_only (text : string) : Prop :=
  all_chars Py.isspace text = true.

(** The text contains one of the question markers, in any letter case. *)
Definition question_marked (text : string) : Prop :=
  exists w, In w question_words /\ Py.contains w (Py.lower text) = true.

(** Two texts agree up to letter case and punctuation. *)
Definition exact_match (text corpus_input : string) : Prop :=
  Py.strip_punctuation (Py.lower text)
  = Py.strip_punctuation (Py.lower corpus_input).

(** The closed set of intent categories. *)
Definition intent_categories : list string :=
  ["greeting"; "status_update"; "minimal_response"; "food_related";
   "life_question"; "attention_check"; "question_personal";
   "question_factual"; "agreement"; "thanks"; "casual_statement"].

(** The classification rules in their priority order, each a test on the
    raw text with the category it gives; the tests other than the greeting
    one look at the lower-cased, trimmed text. *)
Definition on_trimmed (test : string -> bool) (text : string) : bool :=
  test (Py.strip (Py.lower text)).

Definition priority_rules : list ((string -> bool) * string) :=
  [(is_simple_greeting, "greeting");
   (on_trimmed (Py.any_in status_words), "status_update");
   (on_trimmed (Py.any_in minimal_words), "minimal_response");
   (on_trimmed (Py.any_in food_words), "food_related");
   (on_trimmed (Py.any_in life_words), "life_question");
   (on_trimmed (Py.any_in attention_words), "attention_check");
   (on_trimmed (fun t => Py.contains "?" t && Py.any_in personal_questions t),
    "question_personal");
   (on_trimmed (Py.contains "?"), "question_factual");
   (on_trimmed (Py.any_in agreement_words), "agreement");
   (on_trimmed (Py.any_in thanks_words), "thanks")].

(** The category of the first rule whose test holds, else the fallback. *)
Fixpoint first_match (rules : list ((string -> bool) * string))
    (fallback text : string) : string :=
  match rules with
  | [] => fallback
  | (test, category) :: rules' =>
      if test text then category else first_match rules' fallback text
  end.

(** Removing one trailing full stop, as the specification words it. *)
Fixpoint strip_a_trailing_dot (s : string) : string :=
  match s with
  | EmptyString => EmptyString
  | String c EmptyString => if Ascii.eqb c "." then EmptyString else s
  | String c s' => String c (strip_a_trailing_dot s')
  end.

(** A run of [n] full stops. *)
Fixpoint dots (n : nat) : string :=
  match n with
  | O => EmptyString
  | S n' => String "." (dots n')
  end.

(** Learning as the specification words it: the pair is appended, the
    vectorizer and the neighbor index are re-fitted over the full corpus,
    the three retrieval artifacts are persisted, and the style profile is
    left alone in memory and on disk. *)
Definition relearned {sk : Sklearn} (before after : GenerativeUserClone)
    (user_input user_response : string) : Prop :=
  let corpus := (conversations before ++ [(user_input, user_response)])%list in
  conversations after = corpus
  /\ user_style after = user_style before
  /\ user_style_joblib (model_dir after)
     = user_style_joblib (model_dir before)
  /\ exists v k v' X k',
       vectorizer before = Some v /\ knn_model before = Some k
       /\ fit_transform v (map fst corpus) = (v', Some X)
       /\ fit k X = (k', true)
       /\ vectorizer after = Some v' /\ knn_model after = Some k'
       /\ model_dir after = dump_retrieval (model_dir before) v' k' corpus.

(** *** Fixtures *)

(** A scikit-learn double for a corpus of fewer than three pairs: fitting
    succeeds and [kneighbors] raises, as [n_neighbors = 3] exceeds the
    number of fitted samples. *)
Definition small_corpus_sklearn : Sklearn :=
  {| Vectorizer := list string;
     KnnModel := nat;
     Matrix := nat;
     fit_transform := fun _ docs => (docs, Some (List.length docs));
     transform := fun _ docs => Some (List.length docs);
     fit := fun _ X => (X, true);
     kneighbors := fun _ _ => None |}.

Definition empty_dir {sk : Sklearn} : ModelDir :=
  {| vectorizer_joblib := None; knn_model_joblib := None;
     conversations_joblib := None; user_style_joblib := None |}.

(** A trained clone over [small_corpus_sklearn] with the given corpus and
    style, nothing on disk. *)
Definition trained (corpus : list (string * string)) (style : option Styles)
    : @GenerativeUserClone small_corpus_sklearn :=
  {| model_dir := @empty_dir small_corpus_sklearn;
     vectorizer := Some (map fst corpus);
     knn_model := Some (List.length corpus);
     conversations := corpus;
     models_loaded := true;
     user_style := style |}.

(** A fresh clone whose model directory holds the four files of an
    earlier training run. *)
Definition persisted (corpus : list (string * string)) (style : option Styles)
    : @GenerativeUserClone small_corpus_sklearn :=
  @init small_corpus_sklearn
    (@Build_ModelDir small_corpus_sklearn
       (Some (map fst corpus)) (Some (List.length corpus))
       (Some corpus) (Some style)).

(** A scikit-learn double whose vectorizer raises on documents that are
    all blank, as [TfidfVectorizer] does on an empty vocabulary. *)
Definition strict_sklearn : Sklearn :=
  {| Vectorizer := list string;
     KnnModel := nat;
     Matrix := nat;
     fit_transform := fun _ docs =>
       (docs,
        if forallb (fun doc => negb (Py.truthy (Py.strip doc))) docs
        then None else Some (List.length docs));
     transform := fun _ docs => Some (List.length docs);
     fit := fun _ X => (X, true);
     kneighbors := fun _ _ => None |}.

(** A runtime for the doubles: unfitted estimators, the floor of the mean,
    and sets iterated in the order of first occurrence. *)
Definition plain_runtime (sk : Sklearn) (v : @Vectorizer sk)
    (k : @KnnModel sk) : @Runtime sk :=
  {| TfidfVectorizer := v;
     NearestNeighbors := k;
     int_mean := fun lengths =>
       Nat.div (fold_right Nat.add 0 lengths) (List.length lengths);
     set_order := nodup string_dec |}.

(** A clone over [strict_sklearn] whose model directory and attributes
    agree. *)
Definition in_step (corpus : list (string * string))
    : @GenerativeUserClone strict_sklearn :=
  {| model_dir :=
       @Build_ModelDir strict_sklearn (Some (map fst corpus))
         (Some (List.length corpus)) (Some corpus) (Some None);
     vectorizer := Some (map fst corpus);
     knn_model := Some (List.length corpus);
     conversations := corpus;
     models_loaded := true;
     user_style := None |}.

(** The collector after a run of [add_conversation] calls, each with its
    time stamp, input and response. *)
Definition collect (entries : list (string * string * string))
    (collector : DataCollector.SimpleDataCollector)
    : DataCollector.SimpleDataCollector :=
  fold_left (fun c entry =>
               DataCollector.add_conversation (fst (fst entry)) c
                 (snd (fst entry)) (snd entry))
            entries collector.

(** A clone that was never trained, with an empty model directory. *)
Definition untrained : @GenerativeUserClone small_corpus_sklearn :=
  init (@empty_dir small_corpus_sklearn).

Definition style_of (punctuation formality : string) : Styles :=
  {| common_words := []; response_length := 5;
     punctuation_style := punctuation; formality_level := formality;
     common_starters := []; common_enders := [] |}.

(** The retrieved response is usable and the reuse policy accepts it: the
    test [personal_response and should_use_personal_response(...)]. *)
Definition retrieval_accepts {sk : Sklearn} (self : GenerativeUserClone)
    (user_input : string) : bool :=
  match find_retrieval_response self user_input with
  | (Some r, _, similarity_score) =>
      Py.truthy r && should_use_personal_response user_input similarity_score
  | (None, _, _) => false
  end.

(** The clone on which [generate_response] goes on after its first step,
    and whether there is one: the clone itself when the models are loaded,
    else the outcome of [load_models]. *)
Definition readied {sk : Sklearn} (self : GenerativeUserClone)
    : GenerativeUserClone * bool :=
  if models_loaded self then (self, true) else load_models self.

(** [counts] holds exactly the words of [seen], each once, with the number
    of its occurrences. *)
Definition counted (counts : list (string * nat)) (seen : list string)
    : Prop :=
  NoDup (map fst counts)
  /\ forall word n,
       In (word, n) counts <-> n = count_occ string_dec seen word /\ 1 <= n.

(** The words of all responses, as [analyze_user_style] collects them. *)
Definition all_words_of (responses : list string) : list string :=
  List.concat (map (fun response => Py.split_whitespace (Py.lower response))
                   responses).

(** A clause that [handle_multiple_questions] asks about: more than three
    characters after trimming. *)
Definition long_clause (part : string) : bool :=
  Nat.ltb 3 (String.length (Py.strip part)).

(** The text of an answer, without the clone and the random state. *)
Definition answer {sk : Sklearn}
    (result : option (string * GenerativeUserClone * Random))
    : option string :=
  match result with
  | Some (response, _, _) => Some response
  | None => None
  end.

(** Draws that always select the first candidate. *)
Definition first_choice : Random := fun _ => 0.

(* ================================================================== *)
(** ** Proof automation *)
(* ================================================================== *)

(** Split a conjunction into its conjuncts, leaving quantifiers alone. *)
Ltac conjuncts := repeat match goal with |- _ /\ _ => split end.

Ltac is_char_literal c :=
  match c with
  | Ascii _ _ _ _ _ _ _ _ => idtac
  end.

(** Decide the character comparisons of a containment test in [H]:
    literal ones by evaluation, the others by cases. *)
Ltac decide_chars H :=
  cbn [Py.contains Py.startswith String.append] in H;
  repeat (first
    [ match type of H with
      | context [Ascii.eqb ?a ?b] =>
          is_char_literal a; is_char_literal b;
          let r := eval vm_compute in (Ascii.eqb a b) in
          change (Ascii.eqb a b) with r in H
      end
    | progress cbn [andb orb] in H
    | match type of H with
      | context [Ascii.eqb ?a ?b] =>
          destruct (Ascii.eqb_spec a b); [subst|]
      end ]).

(* ================================================================== *)
(** ** Facts about the string operations *)
(* ================================================================== *)

Section StringFacts.

Lemma append_empty_r (s : string) : s ++ "" = s.
Proof. induction s as [|c s IH]; simpl; [reflexivity | now rewrite IH]. Qed.

Lemma append_assoc (a b c : string) : (a ++ b) ++ c = a ++ (b ++ c).
Proof. induction a as [|x a IH]; simpl; [reflexivity | now rewrite IH]. Qed.

Lemma length_append (a b : string) :
  String.length (a ++ b) = String.length a + String.length b.
Proof. induction a as [|x a IH]; simpl; [reflexivity | now rewrite IH]. Qed.

Lemma startswith_iff (s w : string) :
  Py.startswith s w = true <-> exists q, s = w ++ q.
Proof.
  revert s; induction w as [|a w IH]; intros s; simpl.
  - split; [intros _; now exists s | reflexivity].
  - destruct s as [|b s].
    + split; [discriminate | intros [q Hq]; discriminate].
    + rewrite andb_true_iff, IH. split.
      * intros [Hab [q ->]]. apply Ascii.eqb_eq in Hab. subst. now exists q.
      * intros [q Hq]. injection Hq as -> ->. split.
        -- apply Ascii.eqb_refl.
        -- now exists q.
Qed.

Lemma contains_iff (w s : string) :
  Py.contains w s = true <-> exists p q, s = p ++ w ++ q.
Proof.
  induction s as [|c s IH]; simpl.
  - rewrite orb_false_r, startswith_iff. split.
    + intros [q Hq]. now exists "", q.
    + intros [p [q Hq]]. destruct p; simpl in Hq; [now exists q | discriminate].
  - rewrite orb_true_iff, startswith_iff, IH. split.
    + intros [[q Hq] | [p [q Hq]]].
      * now exists "", q.
      * exists (String c p), q. simpl. now rewrite Hq.
    + intros [p [q Hq]]. destruct p as [|x p]; simpl in Hq.
      * left. now exists q.
      * right. injection Hq as _ ->. now exists p, q.
Qed.

Lemma contains_false_tail (w : string) (c : ascii) (s : string) :
  Py.contains w (String c s) = false ->
  Py.startswith (String c s) w = false /\ Py.contains w s = false.
Proof. simpl. intros H. now apply orb_false_iff in H. Qed.

Lemma lower_append (a b : string) :
  Py.lower (a ++ b) = Py.lower a ++ Py.lower b.
Proof. induction a as [|x a IH]; simpl; [reflexivity | now rewrite IH]. Qed.

Lemma nonspace_append (a b : string) :
  nonspace (a ++ b) = nonspace a ++ nonspace b.
Proof.
  induction a as [|x a IH]; simpl; [reflexivity|].
  destruct (Py.isspace x); simpl; now rewrite IH.
Qed.

Lemma strip_punctuation_append (a b : string) :
  Py.strip_punctuation (a ++ b)
  = Py.strip_punctuation a ++ Py.strip_punctuation b.
Proof.
  induction a as [|x a IH]; simpl; [reflexivity|].
  destruct (Py.isword x || Py.isspace x); simpl; now rewrite IH.
Qed.

Lemma all_chars_append (p : ascii -> bool) (a b : string) :
  all_chars p (a ++ b) = all_chars p a && all_chars p b.
Proof.
  induction a as [|x a IH]; simpl; [reflexivity|].
  now rewrite IH, andb_assoc.
Qed.

Lemma nonspace_whitespace (s : string) :
  all_chars Py.isspace s = true -> nonspace s = "".
Proof.
  induction s as [|c s IH]; simpl; [reflexivity|].
  intros H. apply andb_true_iff in H as [Hc Hs]. rewrite Hc. auto.
Qed.

(** Trimming removes white space at both ends and nothing else. *)
Lemma lstrip_split (s : string) :
  exists w, s = w ++ Py.lstrip s /\ all_chars Py.isspace w = true.
Proof.
  induction s as [|c s [w [Hs Hw]]]; simpl.
  - now exists "".
  - destruct (Py.isspace c) eqn:Hc.
    + exists (String c w). simpl. rewrite Hc, Hw. split; [now f_equal | reflexivity].
    + now exists "".
Qed.

Lemma rstrip_split (p : ascii -> bool) (s : string) :
  exists w, s = Py.rstrip_with p s ++ w /\ all_chars p w = true.
Proof.
  induction s as [|c s [w [Hs Hw]]]; simpl.
  - now exists "".
  - destruct (Py.rstrip_with p s) as [|d r] eqn:Hr.
    + simpl in Hs. destruct (p c) eqn:Hc.
      * exists (String c w). simpl. rewrite Hc, Hw. split; [now f_equal | reflexivity].
      * exists w. simpl. split; [now f_equal | assumption].
    + exists w. split; [|assumption]. simpl. simpl in Hs. now f_equal.
Qed.

Lemma strip_split (s : string) :
  exists w1 w2, s = w1 ++ Py.strip s ++ w2
                /\ all_chars Py.isspace w1 = true
                /\ all_chars Py.isspace w2 = true.
Proof.
  unfold Py.strip.
  destruct (rstrip_split Py.isspace s) as [w2 [H2 Hw2]].
  destruct (lstrip_split (Py.rstrip_with Py.isspace s)) as [w1 [H1 Hw1]].
  exists w1, w2. repeat split; try assumption.
  rewrite <- append_assoc, <- H1. exact H2.
Qed.

Lemma nonspace_strip (s : string) : nonspace (Py.strip s) = nonspace s.
Proof.
  destruct (strip_split s) as [w1 [w2 [Hs [H1 H2]]]].
  rewrite Hs at 2. rewrite !nonspace_append.
  rewrite (nonspace_whitespace _ H1), (nonspace_whitespace _ H2).
  simpl. now rewrite append_empty_r.
Qed.

Lemma nonspace_length (s : string) :
  String.length (nonspace s) <= String.length s.
Proof.
  induction s as [|c s IH]; simpl; [lia|].
  destruct (Py.isspace c); simpl; lia.
Qed.

Lemma nonspace_full (s : string) :
  String.length (nonspace s) = String.length s -> nonspace s = s.
Proof.
  induction s as [|c s IH]; simpl; [reflexivity|].
  destruct (Py.isspace c); simpl.
  - pose proof (nonspace_length s). lia.
  - intros H. f_equal. apply IH. lia.
Qed.

(** Containment survives the removal of white space from both texts. *)
Lemma contains_nonspace (w s : string) :
  Py.contains w s = true -> Py.contains (nonspace w) (nonspace s) = true.
Proof.
  rewrite !contains_iff. intros [p [q ->]].
  exists (nonspace p), (nonspace q). now rewrite !nonspace_append.
Qed.

(** A text without the separator is its own single piece. *)
Lemma split_absent (s sep : string) :
  Py.contains sep s = false -> Py.split s sep = [s].
Proof.
  unfold Py.split. induction s as [|c s IH]; intros H.
  - reflexivity.
  - apply contains_false_tail in H as [Hp Hc].
    cbn [Py.split_from]. rewrite Hp, (IH Hc). reflexivity.
Qed.

End StringFacts.

(* ================================================================== *)
(** ** The reuse policy *)
(* ================================================================== *)

Lemma any_in_iff (words : list string) (s : string) :
  Py.any_in words s = true
  <-> exists w, In w words /\ Py.contains w s = true.
Proof. unfold Py.any_in. now rewrite existsb_exists. Qed.

Lemma question_marked_iff (text : string) :
  question_marked text
  <-> Py.any_in question_words (Py.lower text) = true.
Proof. unfold question_marked. now rewrite any_in_iff. Qed.

(** C4. [should_use_personal_response] is the strict-threshold policy:
    a greeting is never reused; a non-greeting text with a question marker
    is reused exactly when the distance is below 0.6, so 0.6 itself is
    rejected and 0.599999 accepted; any other non-greeting text is reused
    exactly when the distance is below 0.8. *)
Theorem should_use_personal_response_thresholds
    (user_input : string) (distance : float) :
  (is_simple_greeting user_input = true ->
     should_use_personal_response user_input distance = false)
  /\ (is_simple_greeting user_input = false ->
      question_marked user_input ->
        should_use_personal_response user_input distance
        = (distance <? 0.6)%float
        /\ should_use_personal_response user_input 0.6 = false
        /\ should_use_personal_response user_input 0.599999 = true)
  /\ (is_simple_greeting user_input = false ->
      ~ question_marked user_input ->
        should_use_personal_response user_input distance
        = (distance <? 0.8)%float
        /\ should_use_personal_response user_input 0.8 = false
        /\ should_use_personal_response user_input 0.799999 = true).
Proof.
  unfold should_use_personal_response.
  split; [|split].
  - intros ->. reflexivity.
  - intros -> Hq. apply question_marked_iff in Hq. rewrite Hq.
    repeat split; reflexivity.
  - intros -> Hq. rewrite question_marked_iff in Hq.
    apply not_true_is_false in Hq. rewrite Hq.
    repeat split; reflexivity.
Qed.

Lemma should_use_personal_response_thresholds_witness :
  should_use_personal_response "Hello" 0 = false
  /\ should_use_personal_response "what time is it" 0.6 = false
  /\ should_use_personal_response "what time is it" 0.599999 = true
  /\ should_use_personal_response "see you later" 0.8 = false
  /\ should_use_personal_response "see you later" 0.799999 = true.
Proof.
  destruct (should_use_personal_response_thresholds "Hello" 0)
    as [Hgreeting _].
  destruct (should_use_personal_response_thresholds "what time is it" 0)
    as [_ [Hquestion _]].
  destruct (should_use_personal_response_thresholds "see you later" 0)
    as [_ [_ Hother]].
  assert (Hq : question_marked "what time is it")
    by (exists "what"; split; [simpl; tauto | reflexivity]).
  assert (Hn : ~ question_marked "see you later").
  { intros H. apply question_marked_iff in H. vm_compute in H. discriminate. }
  destruct (Hquestion eq_refl Hq) as [_ [H06 H05]].
  destruct (Hother eq_refl Hn) as [_ [H08 H07]].
  split; [exact (Hgreeting eq_refl)|].
  repeat split; assumption.
Defined.

(* ================================================================== *)
(** ** The input classifier *)
(* ================================================================== *)

(** C6. [classify_input_type] reads nothing but its argument, gives one of
    the eleven categories on every text, the same one on equal texts, and
    that category is the one of the first rule that matches in the fixed
    priority order, [casual_statement] when none does. *)
Theorem classify_input_type_total_by_priority (user_input : string) :
  In (classify_input_type user_input) intent_categories
  /\ NoDup intent_categories
  /\ List.length intent_categories = 11
  /\ classify_input_type user_input
     = first_match priority_rules "casual_statement" user_input
  /\ (forall again, again = user_input ->
        classify_input_type again = classify_input_type user_input).
Proof.
  split; [|split; [|split; [|split]]].
  - unfold classify_input_type.
    repeat match goal with
           | |- context [if ?b then _ else _] => destruct b
           end; simpl; tauto.
  - unfold intent_categories.
    repeat (constructor; [simpl; intuition discriminate|]).
    constructor.
  - reflexivity.
  - unfold classify_input_type, priority_rules, first_match, on_trimmed.
    destruct (is_simple_greeting user_input); [reflexivity|].
    repeat match goal with
           | |- context [if Py.any_in ?w ?t then _ else _] =>
               destruct (Py.any_in w t); try reflexivity
           | |- context [if Py.contains ?w ?t then _ else _] =>
               destruct (Py.contains w t); simpl; try reflexivity
           end.
  - intros again ->. reflexivity.
Qed.

Lemma classify_input_type_total_by_priority_witness :
  classify_input_type "Is it raining?" = "question_factual"
  /\ classify_input_type "IS IT RAINING?" = classify_input_type "Is it raining?".
Proof.
  destruct (classify_input_type_total_by_priority "Is it raining?")
    as [_ [_ [_ [Hrule Hsame]]]].
  split.
  - rewrite Hrule. reflexivity.
  - reflexivity.
Defined.

(* ================================================================== *)
(** ** The style applier *)
(* ================================================================== *)

Section Style.

Context {sk : Sklearn}.

Lemma endswith_iff (s suf : string) :
  Py.endswith s suf = true <-> exists p, s = p ++ suf.
Proof.
  induction s as [|c s IH]; cbn [Py.endswith].
  - rewrite orb_false_r, String.eqb_eq. split.
    + intros <-. now exists "".
    + intros [p Hp]. destruct p; simpl in Hp; [assumption | discriminate].
  - rewrite orb_true_iff, String.eqb_eq, IH. split.
    + intros [<- | [p ->]]; [now exists "" | now exists (String c p)].
    + intros [p Hp]. destruct p as [|x p]; simpl in Hp.
      * now left.
      * right. injection Hp as _ ->. now exists p.
Qed.

Lemma append_last_inj (p q : string) (a b : ascii) :
  p ++ String a "" = q ++ String b "" -> p = q /\ a = b.
Proof.
  revert q; induction p as [|x p IH]; intros [|y q] H; simpl in H.
  - injection H as ->. now split.
  - injection H as _ H. destruct q; discriminate.
  - injection H as _ H. destruct p; discriminate.
  - injection H as -> H. destruct (IH _ H) as [-> ->]. now split.
Qed.

Lemma endswith_other_char (s : string) (a b : ascii) :
  a <> b -> Py.endswith (s ++ String a "") (String b "") = false.
Proof.
  intros Hab. apply not_true_is_false. rewrite endswith_iff.
  intros [p Hp]. apply append_last_inj in Hp as [_ Heq]. contradiction.
Qed.

Lemma all_dots (w : string) :
  all_chars (Ascii.eqb ".") w = true -> w = dots (String.length w).
Proof.
  induction w as [|c w IH]; cbn [all_chars String.length dots];
    [reflexivity|].
  intros H. apply andb_true_iff in H as [Hc Hw].
  apply Ascii.eqb_eq in Hc. subst c. f_equal. auto.
Qed.

Lemma rstrip_dots_no_trailing_dot (s : string) :
  Py.endswith (Py.rstrip_with (Ascii.eqb ".") s) "." = false.
Proof.
  induction s as [|c s IH]; [reflexivity|].
  cbn [Py.rstrip_with].
  destruct (Py.rstrip_with (Ascii.eqb ".") s) as [|d r].
  - destruct (Ascii.eqb "." c) eqn:Hc; [reflexivity|].
    apply not_true_is_false. rewrite endswith_iff. intros [p Hp].
    destruct p as [|x p]; simpl in Hp.
    + injection Hp as Hp. subst c. now rewrite Ascii.eqb_refl in Hc.
    + injection Hp as _ Hp. destruct p; discriminate.
  - change (Py.endswith (String c (String d r)) ".")
      with (String.eqb (String c (String d r)) "."
            || Py.endswith (String d r) ".").
    rewrite IH, orb_false_r. apply String.eqb_neq. discriminate.
Qed.

(** What [rstrip('.')] leaves: the text is the result followed by a run of
    full stops, and the result has no trailing full stop. *)
Lemma rstrip_dots_spec (s : string) :
  exists n, s = Py.rstrip_with (Ascii.eqb ".") s ++ dots n
            /\ Py.endswith (Py.rstrip_with (Ascii.eqb ".") s) "." = false.
Proof.
  destruct (rstrip_split (Ascii.eqb ".") s) as [w [Hs Hw]].
  exists (String.length w). rewrite <- (all_dots _ Hw).
  split; [exact Hs | apply rstrip_dots_no_trailing_dot].
Qed.

(** Responses that all hold an exclamation mark give the style
    [excited], in whatever order the set of classes is iterated. *)
Lemma max_by_count_all (punctuations rest : list string) (best : string) :
  (forall class, In class rest -> class = best) ->
  max_by_count punctuations best rest = best.
Proof.
  induction rest as [|x rest IH]; intros Hall; [reflexivity|].
  cbn [max_by_count]. rewrite (Hall x (or_introl eq_refl)).
  rewrite Nat.ltb_irrefl. apply IH. intros class Hin. apply Hall. now right.
Qed.

Lemma all_excited (iteration responses : list string) :
  responses <> [] ->
  (forall r, In r responses -> Py.contains "!" r = true) ->
  (forall class, In class iteration
                 <-> In class (map punctuation_of responses)) ->
  analyze_punctuation_style iteration responses = "excited".
Proof.
  intros Hne Hall Hiter.
  assert (Hexcited : forall class, In class iteration -> class = "excited").
  { intros class Hin. apply Hiter, in_map_iff in Hin as [r [<- Hr]].
    unfold punctuation_of. now rewrite (Hall r Hr). }
  unfold analyze_punctuation_style.
  destruct iteration as [|first rest].
  - destruct responses as [|r responses]; [contradiction|].
    destruct (proj2 (Hiter (punctuation_of r)) (or_introl eq_refl)).
  - rewrite max_by_count_all.
    + apply Hexcited. now left.
    + intros class Hin. rewrite (Hexcited first (or_introl eq_refl)).
      apply Hexcited. now right.
Qed.

(** C7 (amended). The punctuation pass: with [excited] on a text not
    ending in [!], every trailing full stop is stripped and [!] appended,
    which turns "That's fine." into "That's fine!"; with [thoughtful] on
    a text without [.], [!] and [?], three full stops are appended; with
    [casual] on a text ending in a full stop, every trailing full stop is
    stripped; with [neutral] nothing changes.  A profile analysed from
    responses that all hold an exclamation mark is [excited] and turns
    "That's fine." into "That's fine!". *)
Theorem punctuation_pass_rules (text : string) :
  (Py.endswith text "!" = false ->
     exists body n,
       text = body ++ dots n /\ Py.endswith body "." = false
       /\ punctuation_pass "excited" text = body ++ "!")
  /\ (Py.any_in ["."; "!"; "?"] text = false ->
        punctuation_pass "thoughtful" text = text ++ "...")
  /\ (Py.endswith text "." = true ->
        exists body n,
          text = body ++ dots (S n) /\ Py.endswith body "." = false
          /\ punctuation_pass "casual" text = body)
  /\ punctuation_pass "neutral" text = text
  /\ punctuation_pass "excited" "That's fine." = "That's fine!"
  /\ (forall iteration responses,
        responses <> [] ->
        (forall r, In r responses -> Py.contains "!" r = true) ->
        (forall class, In class iteration
                       <-> In class (map punctuation_of responses)) ->
        punctuation_pass (analyze_punctuation_style iteration responses)
          "That's fine."
        = "That's fine!").
Proof.
  conjuncts; try reflexivity.
  4: { intros iteration responses Hne Hall Hiter.
       now rewrite (@all_excited iteration responses Hne Hall Hiter). }
  - intros Hend. destruct (rstrip_dots_spec text) as [n [Hs Hb]].
    exists (Py.rstrip_with (Ascii.eqb ".") text), n.
    repeat split; try assumption.
    unfold punctuation_pass. rewrite Hend. reflexivity.
  - intros Hnone. unfold punctuation_pass. rewrite Hnone. reflexivity.
  - intros Hend. destruct (rstrip_dots_spec text) as [n [Hs Hb]].
    destruct n as [|n].
    + simpl in Hs. rewrite append_empty_r in Hs. rewrite <- Hs in Hb.
      congruence.
    + exists (Py.rstrip_with (Ascii.eqb ".") text), n.
      repeat split; try assumption.
      unfold punctuation_pass. rewrite Hend. reflexivity.
Qed.

Lemma punctuation_pass_rules_witness :
  (exists body n,
     "That's fine." = body ++ dots n /\ Py.endswith body "." = false
     /\ punctuation_pass "excited" "That's fine." = body ++ "!")
  /\ punctuation_pass "thoughtful" "Sure" = "Sure..."
  /\ (exists body n,
        "Go ahead." = body ++ dots (S n) /\ Py.endswith body "." = false
        /\ punctuation_pass "casual" "Go ahead." = body)
  /\ punctuation_pass
       (analyze_punctuation_style ["excited"] ["Great!"; "Wow! Nice!"])
       "That's fine."
     = "That's fine!".
Proof.
  destruct (punctuation_pass_rules "That's fine.")
    as [Hexcited [_ [_ [_ [_ Hprofile]]]]].
  destruct (punctuation_pass_rules "Sure") as [_ [Hthoughtful _]].
  destruct (punctuation_pass_rules "Go ahead.") as [_ [_ [Hcasual _]]].
  conjuncts.
  - apply Hexcited. reflexivity.
  - apply Hthoughtful. reflexivity.
  - apply Hcasual. reflexivity.
  - apply Hprofile.
    + discriminate.
    + intros r [<- | [<- | []]]; reflexivity.
    + intros class. cbn. tauto.
Defined.

(** C7 as stated fails on a text with several trailing full stops: the
    code strips all of them, not one. *)
Lemma punctuation_pass_strips_every_trailing_dot :
  Py.endswith "Wait.." "!" = false
  /\ punctuation_pass "excited" "Wait.." = "Wait!"
  /\ punctuation_pass "excited" "Wait.."
     <> strip_a_trailing_dot "Wait.." ++ "!"
  /\ Py.endswith "Wait.." "." = true
  /\ punctuation_pass "casual" "Wait.." = "Wait"
  /\ punctuation_pass "casual" "Wait.." <> strip_a_trailing_dot "Wait..".
Proof. repeat split; try reflexivity; intros H; discriminate H. Qed.

(** C8 (amended). [apply_user_style] is the identity on every text when
    the profile is empty, or when its punctuation style is [neutral] and
    its formality level is not [casual]. *)
Theorem apply_user_style_neutral_identity
    (self : GenerativeUserClone) (response user_input : string) :
  (user_style self = None
   \/ exists styles, user_style self = Some styles
                     /\ punctuation_style styles = "neutral"
                     /\ formality_level styles <> "casual") ->
  apply_user_style self response user_input = response.
Proof.
  unfold apply_user_style.
  intros [-> | [styles [-> [Hp Hf]]]]; [reflexivity|].
  rewrite Hp. apply String.eqb_neq in Hf.
  unfold formality_pass. rewrite Hf. reflexivity.
Qed.

End Style.

Lemma apply_user_style_neutral_identity_witness :
  apply_user_style (trained [] (Some (style_of "neutral" "formal")))
    "Hello! What's new?" "hello"
  = "Hello! What's new?".
Proof.
  apply apply_user_style_neutral_identity.
  right. exists (style_of "neutral" "formal").
  split; [reflexivity | split; [reflexivity | discriminate]].
Defined.

(** C8 as stated fails: a neutral punctuation style does not stop the
    formality pass of a casual profile. *)
Lemma apply_user_style_neutral_casual_rewrites :
  punctuation_style (style_of "neutral" "casual") = "neutral"
  /\ apply_user_style (trained [] (Some (style_of "neutral" "casual")))
       "Hello! What's new?" "hello"
     = "Hey! What's new?"
  /\ apply_user_style (trained [] (Some (style_of "neutral" "casual")))
       "Hello! What's new?" "hello"
     <> "Hello! What's new?".
Proof. repeat split; try reflexivity; intros H; discriminate H. Qed.

(* ================================================================== *)
(** ** Learning *)
(* ================================================================== *)

Section Learning.

Context {sk : Sklearn}.

(** C10. [learn_from_chat] with [was_correct = False] changes nothing:
    corpus, vectorizer, neighbor index, style profile, load flag and the
    files of the model directory are the ones it was given, for every
    input and response, also over any run of such calls. *)
Theorem learn_from_chat_incorrect_noop
    (self : GenerativeUserClone) (user_input user_response : string) :
  learn_from_chat self user_input user_response false = self
  /\ forall rejected : list (string * string),
       fold_left (fun clone pair =>
                    learn_from_chat clone (fst pair) (snd pair) false)
                 rejected self
       = self.
Proof.
  split; [reflexivity|].
  intros rejected. induction rejected as [|pair rejected IH].
  - reflexivity.
  - cbn [fold_left]. exact IH.
Qed.

(** C5 (amended). [learn_from_chat] with [was_correct = True] always
    appends the pair and never touches the style profile, in memory or on
    disk, nor the load flag.  When both the vectorizer and the neighbor
    index exist and re-fitting raises nothing, both are re-fitted over the
    inputs of the full corpus and the vectorizer, index and corpus files
    are rewritten; when one of them is missing nothing else changes; in
    every case the model directory is either untouched or has exactly
    those three files rewritten. *)
Theorem learn_from_chat_correct_effect
    (self : GenerativeUserClone) (user_input user_response : string) :
  let after := learn_from_chat self user_input user_response true in
  let corpus := (conversations self ++ [(user_input, user_response)])%list in
  conversations after = corpus
  /\ user_style after = user_style self
  /\ user_style_joblib (model_dir after) = user_style_joblib (model_dir self)
  /\ models_loaded after = models_loaded self
  /\ (forall v k v' X k',
        vectorizer self = Some v -> knn_model self = Some k ->
        fit_transform v (map fst corpus) = (v', Some X) ->
        fit k X = (k', true) ->
        vectorizer after = Some v' /\ knn_model after = Some k'
        /\ model_dir after = dump_retrieval (model_dir self) v' k' corpus)
  /\ (vectorizer self = None \/ knn_model self = None ->
        after = set_conversations self corpus)
  /\ (model_dir after = model_dir self
      \/ exists v' k',
           model_dir after = dump_retrieval (model_dir self) v' k' corpus).
Proof.
  unfold learn_from_chat. cbn zeta.
  cbn [vectorizer knn_model conversations model_dir set_conversations].
  destruct (vectorizer self) as [v|] eqn:Hv;
    [destruct (knn_model self) as [k|] eqn:Hk|].
  - destruct (fit_transform v
                (map fst (conversations self ++ [(user_input, user_response)])))
      as [v' [X|]] eqn:Hfit.
    + destruct (fit k X) as [k' [|]] eqn:Hknn; cbn; conjuncts; auto.
      * intros ? ? ? ? ? E1 E2 E3 E4.
        injection E1 as <-. injection E2 as <-.
        rewrite Hfit in E3. injection E3 as <- <-.
        rewrite Hknn in E4. injection E4 as <-. auto.
      * intros [E | E]; discriminate E.
      * right. now exists v', k'.
      * intros ? ? ? ? ? E1 E2 E3 E4.
        injection E1 as <-. injection E2 as <-.
        rewrite Hfit in E3. injection E3 as <- <-.
        rewrite Hknn in E4. discriminate E4.
      * intros [E | E]; discriminate E.
    + cbn. conjuncts; auto.
      * intros ? ? ? ? ? E1 E2 E3 E4.
        injection E1 as <-. rewrite Hfit in E3. discriminate E3.
      * intros [E | E]; discriminate E.
  - cbn. conjuncts; auto. intros ? ? ? ? ? E1 E2. discriminate E2.
  - cbn. conjuncts; auto. intros ? ? ? ? ? E1. discriminate E1.
Qed.

End Learning.

Lemma learn_from_chat_correct_effect_witness :
  vectorizer (learn_from_chat
                (trained [("how are you", "I'm doing great!")] None)
                "what do you do" "I write code" true)
  = Some ["how are you"; "what do you do"]
  /\ user_style (learn_from_chat untrained "what do you do" "I write code" true)
     = None.
Proof.
  pose proof
    (learn_from_chat_correct_effect
       (trained [("how are you", "I'm doing great!")] None)
       "what do you do" "I write code")
    as [_ [_ [_ [_ [Hrefit _]]]]].
  pose proof
    (learn_from_chat_correct_effect untrained
       "what do you do" "I write code")
    as [_ [Hstyle _]].
  split.
  - apply (Hrefit ["how are you"] 1 ["how are you"; "what do you do"] 2 2);
      reflexivity.
  - exact Hstyle.
Defined.

(** C5 as stated fails on a clone without a vectorizer: the pair is
    appended, and nothing is re-fitted or written. *)
Lemma learn_from_chat_untrained_appends_only :
  conversations (learn_from_chat untrained "how are you" "fine" true)
  = [("how are you", "fine")]
  /\ vectorizer (learn_from_chat untrained "how are you" "fine" true) = None
  /\ knn_model (learn_from_chat untrained "how are you" "fine" true) = None
  /\ model_dir (learn_from_chat untrained "how are you" "fine" true)
     = empty_dir
  /\ ~ relearned untrained
         (learn_from_chat untrained "how are you" "fine" true)
         "how are you" "fine".
Proof.
  repeat split.
  intros [_ [_ [_ [v [k [v' [X [k' [Hv _]]]]]]]]]. discriminate Hv.
Qed.

(* ================================================================== *)
(** ** Retrieval *)
(* ================================================================== *)

Section Retrieval.

Context {sk : Sklearn}.

Lemma find_first {A : Type} (f : A -> bool) (pre post : list A) (x : A) :
  (forall y, In y pre -> f y = false) -> f x = true ->
  find f (pre ++ x :: post) = Some x.
Proof.
  intros Hpre Hx. induction pre as [|y pre IH]; simpl.
  - now rewrite Hx.
  - rewrite (Hpre y (or_introl eq_refl)). apply IH.
    intros z Hz. apply Hpre. now right.
Qed.

Lemma find_split {A : Type} (f : A -> bool) (l : list A) (x : A) :
  find f l = Some x ->
  exists pre post,
    l = (pre ++ x :: post)%list
    /\ (forall y, In y pre -> f y = false) /\ f x = true.
Proof.
  induction l as [|y l IH]; simpl; [discriminate|].
  destruct (f y) eqn:Hy.
  - intros E. injection E as <-. exists [], l.
    repeat split; [intros z [] | assumption].
  - intros E. destruct (IH E) as [pre [post [-> [Hpre Hx]]]].
    exists (y :: pre), post. repeat split; [|assumption].
    intros z [<- | Hz]; [assumption | now apply Hpre].
Qed.

Lemma find_some_of_in {A : Type} (f : A -> bool) (l : list A) (x : A) :
  In x l -> f x = true -> exists y, find f l = Some y.
Proof.
  intros Hin Hx. destruct (find f l) as [y|] eqn:E; [now exists y|].
  rewrite (find_none f l E x Hin) in Hx. discriminate.
Qed.

(** The cleaned, trimmed query is a piece of the cleaned query. *)
Lemma strip_punctuation_strip_contained (s : string) :
  Py.contains (Py.strip_punctuation (Py.strip s)) (Py.strip_punctuation s)
  = true.
Proof.
  apply contains_iff.
  destruct (strip_split s) as [w1 [w2 [Hs _]]].
  exists (Py.strip_punctuation w1), (Py.strip_punctuation w2).
  rewrite Hs at 1. now rewrite !strip_punctuation_append.
Qed.

Lemma exact_match_very_similar (user_input inp : string) :
  exact_match user_input inp ->
  is_very_similar (Py.strip (Py.lower user_input)) (Py.lower inp) = true.
Proof.
  unfold exact_match, is_very_similar. intros <-.
  rewrite strip_punctuation_strip_contained.
  now destruct (String.eqb _ _).
Qed.

Lemma zero_distance_reused (user_input : string) :
  is_simple_greeting user_input = false ->
  should_use_personal_response user_input 0 = true.
Proof.
  unfold should_use_personal_response. intros ->.
  now destruct (Py.any_in question_words (Py.lower user_input)).
Qed.

(** A query whose scan finds a pair with a non-empty response gets that
    response, whatever the fuel. *)
Lemma generate_response_scan_hit (fuel : nat) (self : GenerativeUserClone)
    (user_input : string) (rng : Random) (inp resp : string) :
  models_loaded self = true ->
  is_simple_greeting user_input = false ->
  find (fun conv =>
          is_very_similar (Py.strip (Py.lower user_input))
                          (Py.lower (fst conv)))
       (conversations self) = Some (inp, resp) ->
  resp <> "" ->
  generate_response fuel self user_input rng = Some (resp, self, rng).
Proof.
  intros Hloaded Hgreet Hfind Hresp.
  unfold generate_response. rewrite Hloaded. cbn [negb].
  destruct (conversations self) as [|conv rest] eqn:Hc; [discriminate Hfind|].
  rewrite Hgreet. unfold find_retrieval_response. rewrite Hc, Hfind.
  rewrite (zero_distance_reused _ Hgreet).
  destruct resp; [contradiction | reflexivity].
Qed.

(** C2 (amended). For a non-greeting input with an exact match, up to
    letter case and punctuation, among the corpus inputs, and with the
    models loaded, the scan stops at the first pair of the corpus whose
    input is very similar to the query; when the response of that pair is
    not empty, [generate_response] returns it verbatim.  That pair is the
    exactly matching one whenever no earlier pair is very similar. *)
Theorem generate_response_exact_match (fuel : nat)
    (self : GenerativeUserClone) (user_input : string) (rng : Random)
    (inp resp : string) :
  models_loaded self = true ->
  is_simple_greeting user_input = false ->
  In (inp, resp) (conversations self) ->
  exact_match user_input inp ->
  exists pre first_inp first_resp post,
    conversations self = (pre ++ (first_inp, first_resp) :: post)%list
    /\ (forall conv, In conv pre ->
          is_very_similar (Py.strip (Py.lower user_input))
                          (Py.lower (fst conv)) = false)
    /\ is_very_similar (Py.strip (Py.lower user_input))
                       (Py.lower first_inp) = true
    /\ (first_resp <> "" ->
          generate_response fuel self user_input rng
          = Some (first_resp, self, rng))
    /\ (forall before after,
          conversations self = (before ++ (inp, resp) :: after)%list ->
          (forall conv, In conv before ->
             is_very_similar (Py.strip (Py.lower user_input))
                             (Py.lower (fst conv)) = false) ->
          (first_inp, first_resp) = (inp, resp)).
Proof.
  intros Hloaded Hgreet Hin Hexact.
  set (similar := fun conv : string * string =>
         is_very_similar (Py.strip (Py.lower user_input))
                         (Py.lower (fst conv))).
  assert (Hsim : similar (inp, resp) = true)
    by (apply exact_match_very_similar; assumption).
  destruct (find_some_of_in similar _ _ Hin Hsim) as [[first_inp first_resp] Hfind].
  destruct (find_split similar _ Hfind) as [pre [post [Hc [Hpre Hfirst]]]].
  exists pre, first_inp, first_resp, post. conjuncts; try assumption.
  - intros Hresp. now apply generate_response_scan_hit with (inp := first_inp).
  - intros before after Hc' Hbefore.
    pose proof (find_first similar before after (inp, resp) Hbefore Hsim) as E.
    rewrite <- Hc', Hfind in E. now injection E as -> ->.
Qed.

Lemma lower_char_space (c : ascii) :
  Py.isspace c = true -> Py.lower_char c = c.
Proof.
  destruct c as [[] [] [] [] [] [] [] []]; intros H;
    solve [reflexivity | discriminate H].
Qed.

Lemma lower_whitespace (s : string) :
  all_chars Py.isspace s = true -> Py.lower s = s.
Proof.
  induction s as [|c s IH]; cbn [all_chars Py.lower]; [reflexivity|].
  intros H. apply andb_true_iff in H as [Hc Hs].
  now rewrite (lower_char_space _ Hc), IH.
Qed.

Lemma rstrip_whitespace (s : string) :
  all_chars Py.isspace s = true -> Py.rstrip_with Py.isspace s = "".
Proof.
  induction s as [|c s IH]; cbn [all_chars Py.rstrip_with]; [reflexivity|].
  intros H. apply andb_true_iff in H as [Hc Hs]. now rewrite IH, Hc.
Qed.

Lemma strip_lower_whitespace (s : string) :
  whitespace_only s -> Py.strip (Py.lower s) = "".
Proof.
  unfold whitespace_only, Py.strip. intros H.
  now rewrite (lower_whitespace _ H), (rstrip_whitespace _ H).
Qed.

Lemma startswith_whitespace (s w : string) (a : ascii) :
  all_chars Py.isspace s = true -> Py.isspace a = false ->
  Py.startswith s (String a w) = false.
Proof.
  destruct s as [|c s]; cbn [all_chars Py.startswith]; [reflexivity|].
  intros H Ha. apply andb_true_iff in H as [Hc _].
  destruct (Ascii.eqb a c) eqn:E; [|reflexivity].
  apply Ascii.eqb_eq in E. congruence.
Qed.

(** White space contains no word that starts with a visible character. *)
Lemma contains_whitespace (s w : string) (a : ascii) :
  all_chars Py.isspace s = true -> Py.isspace a = false ->
  Py.contains (String a w) s = false.
Proof.
  intros Hs Ha. induction s as [|c s IH].
  - reflexivity.
  - cbn [Py.contains]. rewrite (startswith_whitespace _ _ _ Hs Ha).
    cbn [all_chars] in Hs. apply andb_true_iff in Hs as [_ Hs]. auto.
Qed.

Lemma whitespace_not_question (s : string) :
  all_chars Py.isspace s = true -> Py.any_in question_words s = false.
Proof.
  intros Hs. unfold Py.any_in, question_words. cbn [existsb].
  rewrite !(contains_whitespace _ _ _ Hs) by reflexivity. reflexivity.
Qed.

Lemma whitespace_not_greeting (s : string) :
  whitespace_only s -> is_simple_greeting s = false.
Proof.
  intros H. unfold is_simple_greeting.
  now rewrite (strip_lower_whitespace H).
Qed.

Lemma contains_empty (s : string) : Py.contains "" s = true.
Proof. now destruct s. Qed.

(** C9 (amended). With the models loaded, on an empty or white-space-only
    input [generate_response] returns the stored response of the first
    corpus pair verbatim, provided that response is not the empty string:
    the empty cleaned query is contained in every corpus input, so the
    scan stops at the first pair with distance 0, which the policy
    accepts. *)
Theorem generate_response_blank_input (fuel : nat)
    (self : GenerativeUserClone) (user_input : string) (rng : Random)
    (inp resp : string) (rest : list (string * string)) :
  models_loaded self = true ->
  conversations self = (inp, resp) :: rest ->
  whitespace_only user_input ->
  resp <> "" ->
  is_very_similar (Py.strip (Py.lower user_input)) (Py.lower inp) = true
  /\ find_retrieval_response self user_input = (Some resp, "personal", 0%float)
  /\ should_use_personal_response user_input 0 = true
  /\ generate_response fuel self user_input rng = Some (resp, self, rng).
Proof.
  intros Hloaded Hc Hblank Hresp.
  pose proof (whitespace_not_greeting Hblank) as Hgreet.
  assert (Hsim : is_very_similar (Py.strip (Py.lower user_input))
                                 (Py.lower inp) = true).
  { rewrite (strip_lower_whitespace Hblank). unfold is_very_similar.
    cbn [Py.strip_punctuation]. rewrite contains_empty.
    now destruct (String.eqb _ _). }
  assert (Hfind : find (fun conv =>
                          is_very_similar (Py.strip (Py.lower user_input))
                                          (Py.lower (fst conv)))
                       (conversations self) = Some (inp, resp)).
  { rewrite Hc. cbn [find fst]. now rewrite Hsim. }
  conjuncts.
  - exact Hsim.
  - unfold find_retrieval_response. now rewrite Hfind.
  - now apply zero_distance_reused.
  - now apply generate_response_scan_hit with (inp := inp).
Qed.

End Retrieval.

Lemma generate_response_exact_match_witness :
  exists pre first_inp first_resp post,
    conversations
      (trained [("how are you", "I'm doing great!");
                ("what do you do", "I write code")] None)
    = (pre ++ (first_inp, first_resp) :: post)%list
    /\ (forall conv, In conv pre ->
          is_very_similar (Py.strip (Py.lower "How are you?"))
                          (Py.lower (fst conv)) = false)
    /\ is_very_similar (Py.strip (Py.lower "How are you?"))
                       (Py.lower first_inp) = true
    /\ (first_resp <> "" ->
          generate_response 0
            (trained [("how are you", "I'm doing great!");
                      ("what do you do", "I write code")] None)
            "How are you?" first_choice
          = Some (first_resp,
                  trained [("how are you", "I'm doing great!");
                           ("what do you do", "I write code")] None,
                  first_choice))
    /\ (forall before after,
          conversations
            (trained [("how are you", "I'm doing great!");
                      ("what do you do", "I write code")] None)
          = (before ++ ("how are you", "I'm doing great!") :: after)%list ->
          (forall conv, In conv before ->
             is_very_similar (Py.strip (Py.lower "How are you?"))
                             (Py.lower (fst conv)) = false) ->
          (first_inp, first_resp) = ("how are you", "I'm doing great!")).
Proof.
  apply generate_response_exact_match.
  - reflexivity.
  - reflexivity.
  - simpl. tauto.
  - reflexivity.
Defined.

(** C2 as stated fails when an earlier pair contains the query: the scan
    stops there and the exactly matching pair is never reached. *)
Lemma generate_response_earlier_pair_wins :
  is_simple_greeting "how are you" = false
  /\ In ("how are you", "I'm doing great!")
        [("how are you doing today", "Busy as ever");
         ("how are you", "I'm doing great!")]
  /\ exact_match "how are you" "how are you"
  /\ answer (generate_response 0
               (trained [("how are you doing today", "Busy as ever");
                         ("how are you", "I'm doing great!")] None)
               "how are you" first_choice)
     = Some "Busy as ever"
  /\ answer (generate_response 0
               (trained [("how are you doing today", "Busy as ever");
                         ("how are you", "I'm doing great!")] None)
               "how are you" first_choice)
     <> Some "I'm doing great!".
Proof.
  conjuncts; try reflexivity.
  - simpl. tauto.
  - intros H. discriminate H.
Qed.

Lemma generate_response_blank_input_witness :
  is_very_similar (Py.strip (Py.lower "   ")) (Py.lower "how are you") = true
  /\ find_retrieval_response
       (trained [("how are you", "I'm doing great!");
                 ("what do you do", "I write code")] None) "   "
     = (Some "I'm doing great!", "personal", 0%float)
  /\ should_use_personal_response "   " 0 = true
  /\ generate_response 0
       (trained [("how are you", "I'm doing great!");
                 ("what do you do", "I write code")] None)
       "   " first_choice
     = Some ("I'm doing great!",
             trained [("how are you", "I'm doing great!");
                      ("what do you do", "I write code")] None,
             first_choice).
Proof.
  apply generate_response_blank_input with (rest := [("what do you do", "I write code")]).
  - reflexivity.
  - reflexivity.
  - reflexivity.
  - discriminate.
Defined.

(** C9 as stated fails when the first stored response is the empty
    string: it is false in [personal_response and ...], and a template is
    generated instead. *)
Lemma blank_input_empty_stored_response :
  whitespace_only ""
  /\ models_loaded (trained [("how are you", "")] None) = true
  /\ answer (generate_response 1 (trained [("how are you", "")] None)
               "" first_choice)
     = Some "I see what you mean!"
  /\ answer (generate_response 1 (trained [("how are you", "")] None)
               "" first_choice)
     <> Some "".
Proof.
  conjuncts; try reflexivity. intros H. discriminate H.
Qed.

(* ================================================================== *)
(** ** Generation and the multi-clause recursion *)
(* ================================================================== *)

Section Generation.

Context {sk : Sklearn}.

(** A text of at most five characters that holds both "and" and one of
    the greeting words is one of two. *)
Lemma short_and_greeting (n h : string) :
  String.length n <= 5 ->
  Py.contains "and" n = true ->
  In h ["hi"; "hey"; "hello"] ->
  Py.contains h n = true ->
  n = "andhi" \/ n = "hiand".
Proof.
  intros Hlen Hand Hin Hh.
  apply contains_iff in Hand as [p [q ->]].
  rewrite !length_append in Hlen. cbn in Hlen.
  destruct p as [|x [|y [|z p]]]; destruct q as [|u [|v [|w q]]];
    cbn in Hlen; try lia;
    cbn in Hin; destruct Hin as [<- | [<- | [<- | []]]];
    decide_chars Hh; try discriminate Hh; auto.
Qed.

Lemma startswith_space_head (d a : ascii) (rest w : string) :
  Py.isspace d = true -> Py.isspace a = false ->
  Py.startswith (String d rest) (String a w) = false.
Proof.
  intros Hd Ha. cbn [Py.startswith].
  destruct (Ascii.eqb_spec a d); [congruence | reflexivity].
Qed.

Lemma and_not_in_whitespace (s : string) :
  all_chars Py.isspace s = true -> Py.contains " and " s = false.
Proof.
  induction s as [|c s IH]; [reflexivity|].
  cbn [all_chars]. intros H. apply andb_true_iff in H as [_ Hs].
  cbn [Py.contains].
  change (Py.startswith (String c s) " and ")
    with (Ascii.eqb " " c && Py.startswith s "and ").
  rewrite (startswith_whitespace s "nd " "a" Hs eq_refl), andb_false_r.
  now apply IH.
Qed.

(** Padding either of the two texts with white space never makes the
    conjunction appear. *)
Lemma padded_short_greeting (w1 w2 t : string) :
  all_chars Py.isspace w1 = true -> all_chars Py.isspace w2 = true ->
  t = "andhi" \/ t = "hiand" ->
  Py.contains " and " (w1 ++ t ++ w2) = false.
Proof.
  intros H1 H2 Ht. induction w1 as [|c w1 IH].
  - destruct Ht as [-> | ->];
      cbn [String.append Py.contains Py.startswith];
      rewrite (and_not_in_whitespace _ H2); reflexivity.
  - cbn [all_chars] in H1. apply andb_true_iff in H1 as [Hc H1].
    cbn [String.append Py.contains]. rewrite (IH H1), orb_false_r.
    change (Py.startswith (String c (w1 ++ t ++ w2)) " and ")
      with (Ascii.eqb " " c && Py.startswith (w1 ++ t ++ w2) "and ").
    apply andb_false_iff. right.
    destruct w1 as [|d w1].
    + destruct Ht as [-> | ->]; reflexivity.
    + cbn [all_chars] in H1. apply andb_true_iff in H1 as [Hd _].
      now apply startswith_space_head.
Qed.

(** A simple greeting never holds the conjunction [" and "], in any
    letter case. *)
Lemma greeting_without_and (user_input : string) :
  is_simple_greeting user_input = true ->
  Py.contains " and " (Py.lower user_input) = false.
Proof.
  unfold is_simple_greeting. intros Hgreet.
  destruct (Py.contains " and " (Py.lower user_input)) eqn:Hand;
    [exfalso | reflexivity].
  pose proof (contains_nonspace _ _ Hand) as HN.
  rewrite <- (nonspace_strip (Py.lower user_input)) in HN.
  change (nonspace " and ") with "and" in HN.
  destruct (Py.member (Py.strip (Py.lower user_input)) simple_greetings)
    eqn:Hm.
  - apply existsb_exists in Hm as [g [Hin Hg]].
    apply String.eqb_eq in Hg. rewrite Hg in HN.
    cbn [simple_greetings In] in Hin.
    repeat (destruct Hin as [<- | Hin]; [vm_compute in HN; discriminate HN|]).
    contradiction.
  - destruct (Nat.leb (String.length (Py.strip (Py.lower user_input))) 5
              && Py.any_in ["hi"; "hey"; "hello"]
                   (Py.strip (Py.lower user_input))) eqn:Hshort;
      [|discriminate Hgreet].
    apply andb_true_iff in Hshort as [Hlen Hany].
    apply Nat.leb_le in Hlen.
    apply any_in_iff in Hany as [h [Hin Hh]].
    assert (HhN : Py.contains h (nonspace (Py.strip (Py.lower user_input)))
                  = true).
    { apply contains_nonspace in Hh.
      cbn [In] in Hin.
      destruct Hin as [<- | [<- | [<- | []]]]; exact Hh. }
    pose proof (nonspace_length (Py.strip (Py.lower user_input))) as Hle.
    assert (Hshape : nonspace (Py.strip (Py.lower user_input)) = "andhi"
                     \/ nonspace (Py.strip (Py.lower user_input)) = "hiand")
      by (apply short_and_greeting with (h := h); [lia | assumption ..]).
    assert (Hfull : nonspace (Py.strip (Py.lower user_input))
                    = Py.strip (Py.lower user_input)).
    { apply nonspace_full.
      destruct Hshape as [E | E]; rewrite E in Hle |- *; cbn in Hle |- *; lia. }
    rewrite Hfull in Hshape.
    destruct (strip_split (Py.lower user_input)) as [w1 [w2 [Hs [H1 H2]]]].
    rewrite Hs, (padded_short_greeting _ _ H1 H2 Hshape) in Hand.
    discriminate Hand.
Qed.

(** Without [" and "] in the lower-cased text nothing is split. *)
Lemma handle_multiple_questions_without_and (generate : Generate)
    (self : GenerativeUserClone) (user_input : string) (rng : Random) :
  Py.contains " and " (Py.lower user_input) = false ->
  handle_multiple_questions_in generate self user_input rng
  = Some (None, rng).
Proof.
  intros H. unfold handle_multiple_questions_in. rewrite H.
  now destruct (Py.any_in conjunctions (Py.lower user_input)).
Qed.

(** ... and the response is a styled template of the input's category. *)
Lemma generate_creative_response_without_and (fuel : nat)
    (self : GenerativeUserClone) (user_input : string) (rng : Random) :
  Py.contains " and " (Py.lower user_input) = false ->
  generate_creative_response (S fuel) self user_input rng
  = let templates :=
      dict_get response_templates (classify_input_type user_input)
               casual_statement_templates in
    Some (apply_user_style self (fst (random_choice rng templates)) user_input,
          snd (random_choice rng templates)).
Proof.
  intros H. cbn [generate_creative_response].
  rewrite (handle_multiple_questions_without_and _ _ _ _ H).
  cbn zeta. now destruct (random_choice rng _).
Qed.

Lemma random_choice_in (rng : Random) (seq : list string) :
  seq <> [] -> In (fst (random_choice rng seq)) seq.
Proof.
  intros Hne. unfold random_choice. cbn [fst].
  apply nth_In. apply Nat.mod_upper_bound.
  destruct seq; [contradiction | discriminate].
Qed.

Lemma generate_creative_response_greeting (fuel : nat)
    (self : GenerativeUserClone) (user_input : string) (rng : Random) :
  is_simple_greeting user_input = true ->
  generate_creative_response (S fuel) self user_input rng
  = Some (apply_user_style self
            (fst (random_choice rng greeting_templates)) user_input,
          snd (random_choice rng greeting_templates)).
Proof.
  intros Hgreet.
  rewrite (generate_creative_response_without_and _ _ _ _
             (greeting_without_and _ Hgreet)).
  unfold classify_input_type. rewrite Hgreet. reflexivity.
Qed.

Lemma greeting_answer_is_template (fuel : nat)
    (self ready : GenerativeUserClone) (user_input : string) (rng : Random) :
  is_simple_greeting user_input = true ->
  readied self = (ready, true) ->
  generate_response (S fuel) self user_input rng
  = Some (apply_user_style ready
            (fst (random_choice rng greeting_templates)) user_input,
          ready, snd (random_choice rng greeting_templates)).
Proof.
  intros Hgreet Hready. unfold generate_response.
  change (if models_loaded self then (self, true) else load_models self)
    with (readied self).
  rewrite Hready. cbn [negb].
  rewrite (generate_creative_response_greeting _ _ _ _ Hgreet), Hgreet.
  now destruct (conversations ready).
Qed.

(** C3 (amended). When the models are loaded, or load successfully, a
    simple greeting is answered with one of the eight greeting templates
    after style application, and with the models loaded the answer is the
    same whatever the corpus holds: no stored response is consulted. *)
Theorem generate_response_greeting (fuel : nat)
    (self ready : GenerativeUserClone) (user_input : string) (rng : Random) :
  is_simple_greeting user_input = true ->
  readied self = (ready, true) ->
  In (fst (random_choice rng greeting_templates)) greeting_templates
  /\ generate_response (S fuel) self user_input rng
     = Some (apply_user_style ready
               (fst (random_choice rng greeting_templates)) user_input,
             ready, snd (random_choice rng greeting_templates))
  /\ (models_loaded self = true ->
      forall corpus,
        answer (generate_response (S fuel) (set_conversations self corpus)
                  user_input rng)
        = answer (generate_response (S fuel) self user_input rng)).
Proof.
  intros Hgreet Hready. conjuncts.
  - apply random_choice_in. discriminate.
  - now apply greeting_answer_is_template.
  - intros Hloaded corpus.
    rewrite (greeting_answer_is_template fuel self (ready := self)),
            (greeting_answer_is_template fuel
               (set_conversations self corpus)
               (ready := set_conversations self corpus));
      try assumption; try (unfold readied; cbn; now rewrite Hloaded).
    reflexivity.
Qed.

(** *** The clause "A AND B" *)

Lemma find_single_response_declined (generate : Generate)
    (self : GenerativeUserClone) (user_input : string) (rng : Random) :
  retrieval_accepts self user_input = false ->
  find_single_response_in generate self user_input rng
  = generate user_input rng.
Proof.
  unfold retrieval_accepts, find_single_response_in.
  destruct (find_retrieval_response self user_input) as [[[r|] m] d];
    [|reflexivity].
  now intros ->.
Qed.

(** The upper-case conjunction is detected in the lower-cased text, but
    the split of the original text gives the whole text back as its only
    clause. *)
Lemma handle_multiple_questions_upper_and (generate : Generate)
    (self : GenerativeUserClone) (rng : Random) :
  generate "A AND B" rng = None ->
  retrieval_accepts self "A AND B" = false ->
  handle_multiple_questions_in generate self "A AND B" rng = None.
Proof.
  intros Hgen Hdeclined. unfold handle_multiple_questions_in.
  change (Py.lower "A AND B") with "a and b".
  change (Py.any_in conjunctions "a and b") with true.
  change (Py.contains " and " "a and b") with true.
  change (Py.split "A AND B" " and ") with ["A AND B"].
  cbn [negb answer_parts].
  change (Py.strip "A AND B") with "A AND B".
  cbn [Py.truthy String.length Nat.ltb Nat.leb andb].
  now rewrite (find_single_response_declined _ _ _ _ Hdeclined), Hgen.
Qed.

Lemma generate_creative_response_upper_and (fuel : nat)
    (self : GenerativeUserClone) (rng : Random) :
  retrieval_accepts self "A AND B" = false ->
  generate_creative_response fuel self "A AND B" rng = None.
Proof.
  intros Hdeclined. revert rng.
  induction fuel as [|fuel IH]; intros rng; [reflexivity|].
  cbn [generate_creative_response].
  now rewrite (handle_multiple_questions_upper_and _ _ _ (IH rng) Hdeclined).
Qed.

(** C1 (the code fails it). On the input "A AND B", with the models
    loaded and no stored response accepted for it, [generate_response]
    returns nothing however much fuel it is given: each call of
    [generate_creative_response] reaches the same call again through
    [handle_multiple_questions] and [find_single_response]. *)
Theorem generate_response_upper_and_never_returns (fuel : nat)
    (self : GenerativeUserClone) (rng : Random) :
  models_loaded self = true ->
  retrieval_accepts self "A AND B" = false ->
  generate_response fuel self "A AND B" rng = None.
Proof.
  intros Hloaded Hdeclined. unfold generate_response.
  rewrite Hloaded. cbn [negb].
  rewrite (generate_creative_response_upper_and _ _ _ Hdeclined).
  destruct (conversations self); [reflexivity|].
  change (is_simple_greeting "A AND B") with false. cbn iota.
  unfold retrieval_accepts in Hdeclined.
  destruct (find_retrieval_response self "A AND B") as [[[r|] m] d];
    [|reflexivity].
  now rewrite Hdeclined.
Qed.

End Generation.

(** For contrast: a text without the conjunction, in any letter case, is
    always answered, with one unit of fuel. *)
Lemma generate_response_returns_without_and {sk : Sklearn} (fuel : nat)
    (self : GenerativeUserClone) (user_input : string) (rng : Random) :
  Py.contains " and " (Py.lower user_input) = false ->
  exists result, generate_response (S fuel) self user_input rng = Some result.
Proof.
  intros H. unfold generate_response.
  destruct (if models_loaded self then (self, true) else load_models self)
    as [ready [|]]; cbn [negb]; [|now eexists].
  rewrite (generate_creative_response_without_and _ _ _ _ H). cbn zeta.
  destruct (conversations ready); [now eexists|].
  destruct (is_simple_greeting user_input); [now eexists|].
  destruct (find_retrieval_response ready user_input) as [[[r|] m] d];
    [|now eexists].
  destruct (Py.truthy r && should_use_personal_response user_input d);
    now eexists.
Qed.

Example lower_case_and_is_answered :
  answer (generate_response 1
            (trained [("how are you", "I'm doing great!");
                      ("what do you do", "I write code")] None)
            "A and B" first_choice)
  = Some "I see what you mean!".
Proof. reflexivity. Qed.

Lemma generate_response_upper_and_never_returns_witness :
  generate_response 1000
    (trained [("how are you", "I'm doing great!");
              ("what do you do", "I write code")] None)
    "A AND B" first_choice
  = None.
Proof.
  apply generate_response_upper_and_never_returns.
  - reflexivity.
  - reflexivity.
Defined.

Lemma generate_response_greeting_witness :
  (In (fst (random_choice first_choice greeting_templates)) greeting_templates
   /\ generate_response 1
        (trained [("hello", "yo, long time")]
                 (Some (style_of "casual" "casual")))
        "Hello!" first_choice
      = Some (apply_user_style
                (trained [("hello", "yo, long time")]
                         (Some (style_of "casual" "casual")))
                (fst (random_choice first_choice greeting_templates))
                "Hello!",
              trained [("hello", "yo, long time")]
                      (Some (style_of "casual" "casual")),
              snd (random_choice first_choice greeting_templates))
   /\ (models_loaded
         (trained [("hello", "yo, long time")]
                  (Some (style_of "casual" "casual"))) = true ->
       forall corpus,
         answer (generate_response 1
                   (set_conversations
                      (trained [("hello", "yo, long time")]
                               (Some (style_of "casual" "casual"))) corpus)
                   "Hello!" first_choice)
         = answer (generate_response 1
                     (trained [("hello", "yo, long time")]
                              (Some (style_of "casual" "casual")))
                     "Hello!" first_choice)))
  /\ answer (generate_response 1
               (persisted [("hi", "yo")] (Some (style_of "excited" "neutral")))
               " hi " first_choice)
     = Some "Hey there! How's it going?!".
Proof.
  split.
  - apply generate_response_greeting.
    + reflexivity.
    + reflexivity.
  - destruct (generate_response_greeting 0
                (persisted [("hi", "yo")] (Some (style_of "excited" "neutral")))
                (ready := fst (load_models
                   (persisted [("hi", "yo")]
                              (Some (style_of "excited" "neutral")))))
                " hi " first_choice eq_refl eq_refl) as [_ [Hanswer _]].
    rewrite Hanswer. reflexivity.
Defined.

(** C3 as stated fails on a clone whose models are neither loaded nor
    loadable: the greeting is answered with the fixed request to train,
    which is no greeting template. *)
Lemma greeting_on_untrained_clone :
  is_simple_greeting "hi" = true
  /\ answer (generate_response 1 untrained "hi" first_choice)
     = Some "Please train the model first (option 2)."
  /\ ~ (exists template,
          In template greeting_templates
          /\ answer (generate_response 1 untrained "hi" first_choice)
             = Some (apply_user_style untrained template "hi")).
Proof.
  conjuncts; try reflexivity.
  intros [template [Hin H]]. cbn [greeting_templates In] in Hin.
  repeat (destruct Hin as [<- | Hin]; [discriminate H|]).
  contradiction.
Qed.

(* ================================================================== *)
(** ** Further properties of the lexical rules *)
(* ================================================================== *)

Section Lexical.

Lemma lower_char_idempotent (c : ascii) :
  Py.lower_char (Py.lower_char c) = Py.lower_char c.
Proof. destruct c as [[] [] [] [] [] [] [] []]; reflexivity. Qed.

Lemma lower_idempotent (s : string) : Py.lower (Py.lower s) = Py.lower s.
Proof.
  induction s as [|c s IH]; cbn [Py.lower]; [reflexivity|].
  now rewrite lower_char_idempotent, IH.
Qed.

Lemma lstrip_padding (w t : string) :
  all_chars Py.isspace w = true -> Py.lstrip (w ++ t) = Py.lstrip t.
Proof.
  induction w as [|c w IH]; cbn [all_chars String.append Py.lstrip];
    [reflexivity|].
  intros H. apply andb_true_iff in H as [Hc Hw]. rewrite Hc. auto.
Qed.

Lemma rstrip_append (p : ascii -> bool) (a b : string) :
  Py.rstrip_with p (a ++ b)
  = match Py.rstrip_with p b with
    | EmptyString => Py.rstrip_with p a
    | r => a ++ r
    end.
Proof.
  induction a as [|c a IH]; cbn [String.append Py.rstrip_with].
  - now destruct (Py.rstrip_with p b).
  - rewrite IH. destruct (Py.rstrip_with p b); [reflexivity|].
    now destruct a.
Qed.

(** White space around a text does not survive trimming. *)
Lemma strip_padding (w1 w2 t : string) :
  all_chars Py.isspace w1 = true -> all_chars Py.isspace w2 = true ->
  Py.strip (w1 ++ t ++ w2) = Py.strip t.
Proof.
  intros H1 H2. unfold Py.strip.
  rewrite (rstrip_append Py.isspace w1 (t ++ w2)).
  rewrite (rstrip_append Py.isspace t w2), (rstrip_whitespace _ H2).
  destruct (Py.rstrip_with Py.isspace t) as [|c r] eqn:Hr.
  - now rewrite (rstrip_whitespace _ H1).
  - now apply lstrip_padding.
Qed.

Lemma strip_lower_padding (w1 w2 t : string) :
  all_chars Py.isspace w1 = true -> all_chars Py.isspace w2 = true ->
  Py.strip (Py.lower (w1 ++ t ++ w2)) = Py.strip (Py.lower t).
Proof.
  intros H1 H2. rewrite !lower_append.
  rewrite (lower_whitespace _ H1), (lower_whitespace _ H2).
  now apply strip_padding.
Qed.

(** The classifier and the greeting test look at the trimmed, lower-cased
    text only. *)
Lemma classification_by_trimmed_lower (a b : string) :
  Py.strip (Py.lower a) = Py.strip (Py.lower b) ->
  is_simple_greeting a = is_simple_greeting b
  /\ classify_input_type a = classify_input_type b.
Proof.
  intros H. assert (Hg : is_simple_greeting a = is_simple_greeting b)
    by (unfold is_simple_greeting; now rewrite H).
  split; [exact Hg|]. unfold classify_input_type. now rewrite Hg, H.
Qed.

(** X1. Classification ignores letter case and surrounding white space:
    lower-casing the text, or padding it with white space on either side,
    changes neither the greeting test nor the category. *)
Theorem classification_ignores_case_and_padding (text w1 w2 : string) :
  all_chars Py.isspace w1 = true ->
  all_chars Py.isspace w2 = true ->
  is_simple_greeting (Py.lower text) = is_simple_greeting text
  /\ classify_input_type (Py.lower text) = classify_input_type text
  /\ is_simple_greeting (w1 ++ text ++ w2) = is_simple_greeting text
  /\ classify_input_type (w1 ++ text ++ w2) = classify_input_type text.
Proof.
  intros H1 H2.
  destruct (classification_by_trimmed_lower (Py.lower text) text)
    as [Hg Hc]; [now rewrite lower_idempotent|].
  destruct (classification_by_trimmed_lower (w1 ++ text ++ w2) text)
    as [Hg' Hc']; [now apply strip_lower_padding|].
  now conjuncts.
Qed.

Lemma classification_ignores_case_and_padding_witness :
  is_simple_greeting (Py.lower "HeLLo") = is_simple_greeting "HeLLo"
  /\ classify_input_type (Py.lower "HeLLo") = classify_input_type "HeLLo"
  /\ is_simple_greeting ("  " ++ "HeLLo" ++ " ") = is_simple_greeting "HeLLo"
  /\ classify_input_type ("  " ++ "HeLLo" ++ " ") = classify_input_type "HeLLo".
Proof.
  apply classification_ignores_case_and_padding; reflexivity.
Defined.

(** X2. [is_very_similar] is symmetric, holds between every text and
    itself, and holds between any two texts one of which has nothing left
    after cleaning; it is not transitive. *)
Theorem is_very_similar_symmetric (a b : string) :
  is_very_similar a b = is_very_similar b a
  /\ is_very_similar a a = true
  /\ (Py.strip_punctuation a = "" -> is_very_similar a b = true)
  /\ (is_very_similar "tea" "?!" = true
      /\ is_very_similar "?!" "milk" = true
      /\ is_very_similar "tea" "milk" = false).
Proof.
  conjuncts; try reflexivity.
  - unfold is_very_similar.
    rewrite (String.eqb_sym (Py.strip_punctuation a)).
    now rewrite (orb_comm (Py.contains (Py.strip_punctuation a) _)).
  - unfold is_very_similar. now rewrite String.eqb_refl.
  - intros Ha. unfold is_very_similar. rewrite Ha, contains_empty.
    now destruct (String.eqb _ _).
Qed.

Lemma is_very_similar_symmetric_witness :
  is_very_similar "..." "how are you" = true.
Proof.
  destruct (is_very_similar_symmetric "..." "how are you")
    as [_ [_ [Hempty _]]].
  apply Hempty. reflexivity.
Defined.

Lemma classify_input_type_in_categories (user_input : string) :
  In (classify_input_type user_input) intent_categories.
Proof.
  unfold classify_input_type.
  repeat match goal with
         | |- context [if ?b then _ else _] => destruct b
         end; simpl; tauto.
Qed.

Lemma templates_of_category (user_input : string)
    (rng : Random) :
  exists templates,
    In (classify_input_type user_input, templates) response_templates
    /\ dict_get response_templates (classify_input_type user_input)
                casual_statement_templates = templates
    /\ In (fst (random_choice rng templates)) templates.
Proof.
  pose proof (classify_input_type_in_categories user_input) as Hin.
  assert (H : exists templates,
             In (classify_input_type user_input, templates) response_templates
             /\ templates <> []
             /\ dict_get response_templates (classify_input_type user_input)
                         casual_statement_templates = templates).
  { cbn [intent_categories In] in Hin.
    repeat (destruct Hin as [<- | Hin];
            [eexists; conjuncts;
             [ cbn [response_templates In];
               do 12 (try (left; reflexivity); right)
             | idtac | reflexivity ]; discriminate |]).
    contradiction. }
  destruct H as [templates [H1 [H2 H3]]].
  exists templates. conjuncts; try assumption.
  now apply random_choice_in.
Qed.

(** X3. The template table covers the classifier: the category of every
    text is a key of [response_templates] with a non-empty list, so the
    lookup never falls back on its default for a missing key and
    [random.choice] never gets an empty list; the chosen template belongs
    to the list of the category. *)
Theorem response_templates_cover_classifier (user_input : string)
    (rng : Random) :
  exists templates,
    In (classify_input_type user_input, templates) response_templates
    /\ templates <> []
    /\ dict_get response_templates (classify_input_type user_input)
                casual_statement_templates = templates
    /\ In (fst (random_choice rng templates)) templates.
Proof.
  destruct (templates_of_category user_input rng)
    as [templates [Hin [Hget Hchoice]]].
  exists templates. conjuncts; try assumption.
  intros ->. destruct Hchoice.
Qed.

End Lexical.

(* ================================================================== *)
(** ** Further properties of retrieval and generation *)
(* ================================================================== *)

Section Answers.

Context {sk : Sklearn}.

Lemma find_retrieval_response_aux
    (self : GenerativeUserClone) (user_input : string) :
  match find_retrieval_response self user_input with
  | (Some resp, match_type, distance) =>
      exists inp,
        In (inp, resp) (conversations self)
        /\ ((match_type = "personal" /\ distance = 0%float
             /\ is_very_similar (Py.strip (Py.lower user_input))
                                (Py.lower inp) = true)
            \/ match_type = "similar_personal")
  | (None, match_type, distance) =>
      match_type = "no_match" /\ distance = 1%float
  end.
Proof.
  unfold find_retrieval_response.
  destruct (find _ (conversations self)) as [[inp resp]|] eqn:Hfind.
  - exists inp. split.
    + now apply find_some in Hfind.
    + left. apply find_some in Hfind. cbn [fst] in Hfind. tauto.
  - destruct (vectorizer self) as [v|]; [|now split].
    destruct (knn_model self) as [k|]; [|now split].
    destruct (transform v [user_input]) as [vec|]; [|now split].
    destruct (kneighbors k vec) as [[d idx]|]; [|now split].
    destruct (nth_error (conversations self) idx) as [[inp resp]|] eqn:Hnth;
      [|now split].
    exists inp. split; [now apply nth_error_In in Hnth | now right].
Qed.

(** X4. Retrieval never invents text: a response it reports is the
    response of a stored pair, labelled [personal] with distance 0 when
    the scan found a very similar input and [similar_personal] when the
    neighbor index gave it; without a response the label is [no_match]
    and the distance 1.0, which is also all an empty corpus can give. *)
Theorem find_retrieval_response_provenance
    (self : GenerativeUserClone) (user_input : string) :
  match find_retrieval_response self user_input with
  | (Some resp, match_type, distance) =>
      exists inp,
        In (inp, resp) (conversations self)
        /\ ((match_type = "personal" /\ distance = 0%float
             /\ is_very_similar (Py.strip (Py.lower user_input))
                                (Py.lower inp) = true)
            \/ match_type = "similar_personal")
  | (None, match_type, distance) =>
      match_type = "no_match" /\ distance = 1%float
  end
  /\ (conversations self = [] ->
      find_retrieval_response self user_input = (None, "no_match", 1%float)).
Proof.
  split; [apply find_retrieval_response_aux|].
  intros Hc. unfold find_retrieval_response. rewrite Hc. cbn [find].
  destruct (vectorizer self) as [v|]; [|reflexivity].
  destruct (knn_model self) as [k|]; [|reflexivity].
  destruct (transform v [user_input]) as [vec|]; [|reflexivity].
  destruct (kneighbors k vec) as [[d idx]|]; [|reflexivity].
  now destruct idx.
Qed.

(** A styled text is never empty when the text holds a character other
    than a full stop. *)
Lemma replace_nonempty (old new s : string) (count : option nat) :
  s <> "" -> new <> "" -> Py.replace s old new count <> "".
Proof.
  intros Hs Hnew. unfold Py.replace. destruct s as [|c s]; [contradiction|].
  cbn [Py.replace_from].
  destruct (_ && Py.startswith (String c s) old); [|discriminate].
  destruct new; [contradiction | discriminate].
Qed.

Lemma formality_pass_nonempty (formality response : string) :
  response <> "" -> formality_pass formality response <> "".
Proof.
  intros H. unfold formality_pass.
  destruct (String.eqb formality "casual"); [|assumption].
  assert (H' : (if Py.startswith response "Hello"
                then Py.replace response "Hello" "Hey" (Some 1)
                else response) <> "").
  { destruct (Py.startswith response "Hello"); [|assumption].
    apply replace_nonempty; [assumption | discriminate]. }
  destruct (Py.contains "How are you" _); [|assumption].
  apply replace_nonempty; [assumption | discriminate].
Qed.

Lemma append_nonempty_r (a b : string) : b <> "" -> a ++ b <> "".
Proof.
  intros Hb H. destruct a; cbn in H; [contradiction | discriminate].
Qed.

Lemma punctuation_pass_nonempty (style response : string) :
  Py.rstrip_with (Ascii.eqb ".") response <> "" ->
  punctuation_pass style response <> "".
Proof.
  intros H. assert (Hr : response <> "") by (intros ->; now apply H).
  unfold punctuation_pass.
  destruct (_ && negb (Py.endswith response "!"));
    [apply append_nonempty_r; discriminate|].
  destruct (_ && negb (Py.any_in _ response));
    [apply append_nonempty_r; discriminate|].
  now destruct (_ && Py.endswith response ".").
Qed.

Lemma apply_user_style_nonempty (self : GenerativeUserClone)
    (response user_input : string) :
  Py.rstrip_with (Ascii.eqb ".") response <> "" ->
  apply_user_style self response user_input <> "".
Proof.
  intros H. unfold apply_user_style.
  destruct (user_style self) as [styles|].
  - now apply formality_pass_nonempty, punctuation_pass_nonempty.
  - intros ->. now apply H.
Qed.

Lemma templates_keep_text :
  Forall (fun entry =>
            Forall (fun template =>
                      Py.rstrip_with (Ascii.eqb ".") template <> "")
                   (snd entry))
         response_templates.
Proof.
  unfold response_templates, greeting_templates, casual_statement_templates.
  repeat (constructor; [cbn [snd]; repeat (constructor; [discriminate|]);
                        constructor|]).
  constructor.
Qed.

Lemma chosen_template_styled_nonempty (self : GenerativeUserClone)
    (user_input : string) (rng : Random) :
  apply_user_style self
    (fst (random_choice rng
            (dict_get response_templates (classify_input_type user_input)
                      casual_statement_templates)))
    user_input <> "".
Proof.
  destruct (templates_of_category user_input rng)
    as [templates [Hin [Hget Hchoice]]].
  rewrite Hget. apply apply_user_style_nonempty.
  pose proof templates_keep_text as Hall.
  rewrite Forall_forall in Hall. specialize (Hall _ Hin). cbn [snd] in Hall.
  rewrite Forall_forall in Hall. now apply Hall.
Qed.

End Answers.

Section Returns.

Context {sk : Sklearn}.

Lemma generate_creative_response_step (fuel : nat)
    (self : GenerativeUserClone) (user_input : string) (rng : Random) :
  generate_creative_response (S fuel) self user_input rng
  = match handle_multiple_questions_in
            (generate_creative_response fuel self) self user_input rng with
    | None => None
    | Some (multi_response, rng1) =>
        let templated :=
          Some (apply_user_style self
                  (fst (random_choice rng1
                          (dict_get response_templates
                             (classify_input_type user_input)
                             casual_statement_templates)))
                  user_input,
                snd (random_choice rng1
                       (dict_get response_templates
                          (classify_input_type user_input)
                          casual_statement_templates))) in
        match multi_response with
        | Some r => if Py.truthy r then Some (r, rng1) else templated
        | None => templated
        end
    end.
Proof.
  cbn [generate_creative_response].
  destruct (handle_multiple_questions_in _ self user_input rng)
    as [[multi rng1]|]; [|reflexivity].
  cbn zeta. now destruct (random_choice rng1 _).
Qed.

Lemma truthy_nonempty (s : string) : Py.truthy s = true -> s <> "".
Proof. destruct s; [discriminate | intros _; discriminate]. Qed.

Lemma generate_creative_response_nonempty (fuel : nat)
    (self : GenerativeUserClone) (user_input : string) (rng rng' : Random)
    (r : string) :
  generate_creative_response fuel self user_input rng = Some (r, rng') ->
  r <> "".
Proof.
  destruct fuel as [|fuel]; [discriminate|].
  rewrite generate_creative_response_step.
  destruct (handle_multiple_questions_in _ self user_input rng)
    as [[multi rng1]|]; [|discriminate].
  cbn zeta.
  destruct multi as [m|]; [destruct (Py.truthy m) eqn:Hm|];
    intros E; injection E as <- _;
    solve [now apply truthy_nonempty
          | apply chosen_template_styled_nonempty].
Qed.

(** The three ways out of [generate_response]. *)
Lemma generate_response_cases (fuel : nat) (self self' : GenerativeUserClone)
    (user_input : string) (rng rng' : Random) (r : string) :
  generate_response fuel self user_input rng = Some (r, self', rng') ->
  self' = fst (readied self)
  /\ ((snd (readied self) = false /\ r = not_trained)
      \/ (snd (readied self) = true
          /\ (generate_creative_response fuel self' user_input rng
              = Some (r, rng')
              \/ (Py.truthy r = true /\ rng' = rng
                  /\ conversations self' <> []
                  /\ is_simple_greeting user_input = false
                  /\ exists m d,
                       find_retrieval_response self' user_input
                       = (Some r, m, d)
                       /\ should_use_personal_response user_input d
                          = true)))).
Proof.
  unfold generate_response.
  change (if models_loaded self then (self, true) else load_models self)
    with (readied self).
  destruct (readied self) as [ready [|]]; cbn [negb fst snd].
  - assert (Hcreative :
      match generate_creative_response fuel ready user_input rng with
      | Some (r0, rng0) => Some (r0, ready, rng0)
      | None => None
      end = Some (r, self', rng') ->
      self' = ready
      /\ generate_creative_response fuel ready user_input rng
         = Some (r, rng')).
    { destruct (generate_creative_response fuel ready user_input rng)
        as [[r0 rng0]|]; [|discriminate].
      intros E. injection E as <- <- <-. now split. }
    destruct (conversations ready) as [|conv rest] eqn:Hc.
    { intros E. apply Hcreative in E as [-> E]. split; [reflexivity|].
      right. split; [reflexivity|]. now left. }
    destruct (is_simple_greeting user_input) eqn:Hg.
    { intros E. apply Hcreative in E as [-> E]. split; [reflexivity|].
      right. split; [reflexivity|]. now left. }
    destruct (find_retrieval_response ready user_input) as [[[p|] m] d] eqn:Hf.
    + destruct (Py.truthy p && should_use_personal_response user_input d)
        eqn:Hok.
      * intros E. injection E as <- <- <-. split; [reflexivity|].
        apply andb_true_iff in Hok as [Ht Hu].
        right. split; [reflexivity|]. right.
        conjuncts; try assumption; try reflexivity.
        -- rewrite Hc. discriminate.
        -- now exists m, d.
      * intros E. apply Hcreative in E as [-> E]. split; [reflexivity|].
        right. split; [reflexivity|]. now left.
    + intros E. apply Hcreative in E as [-> E]. split; [reflexivity|].
      right. split; [reflexivity|]. now left.
  - intros E. injection E as <- <- <-. split; [reflexivity|].
    left. now split.
Qed.

(** X5. Whenever [generate_response] returns, the text it returns is not
    empty: the request to train, a stored response that passed the
    truth test, a combination, or a styled template. *)
Theorem generate_response_never_empty (fuel : nat)
    (self self' : GenerativeUserClone) (user_input : string)
    (rng rng' : Random) (r : string) :
  generate_response fuel self user_input rng = Some (r, self', rng') ->
  r <> "".
Proof.
  intros E. apply generate_response_cases in E
    as [_ [[_ ->] | [_ [E | [Ht _]]]]].
  - discriminate.
  - now apply generate_creative_response_nonempty in E.
  - now apply truthy_nonempty.
Qed.

(** X6. Answering does not change a loaded clone, and a stored response
    is returned without consuming any random draw: whenever
    [generate_response] returns on a clone whose models are loaded, the
    clone it hands back is the one it was given, and the answer is either
    generated or the response of a stored pair with the random state
    untouched. *)
Theorem generate_response_read_only (fuel : nat)
    (self self' : GenerativeUserClone) (user_input : string)
    (rng rng' : Random) (r : string) :
  models_loaded self = true ->
  generate_response fuel self user_input rng = Some (r, self', rng') ->
  self' = self
  /\ (generate_creative_response fuel self user_input rng = Some (r, rng')
      \/ (rng' = rng /\ exists inp, In (inp, r) (conversations self))).
Proof.
  intros Hloaded E. apply generate_response_cases in E as [Hself Hcases].
  unfold readied in Hself, Hcases. rewrite Hloaded in Hself, Hcases.
  cbn [fst snd] in Hself, Hcases. subst self'. split; [reflexivity|].
  destruct Hcases as [[Hf _] | [_ [E | [_ [Hrng [_ [_ [m [d [Hfind _]]]]]]]]]].
  - discriminate Hf.
  - now left.
  - right. split; [assumption|].
    pose proof (find_retrieval_response_aux self user_input) as Hp.
    rewrite Hfind in Hp. destruct Hp as [inp [Hin _]]. now exists inp.
Qed.

End Returns.

Lemma find_retrieval_response_provenance_witness :
  find_retrieval_response (trained [] None) "how are you"
  = (None, "no_match", 1%float).
Proof.
  apply (find_retrieval_response_provenance (trained [] None) "how are you").
  reflexivity.
Defined.

(* ================================================================== *)
(** ** When the multi-clause recursion ends *)
(* ================================================================== *)

Section Clauses.

Context {sk : Sklearn}.

Lemma startswith_extend (a t sep : string) :
  Py.startswith a sep = true -> Py.startswith (a ++ t) sep = true.
Proof.
  rewrite !startswith_iff. intros [q ->]. exists (q ++ t).
  now rewrite append_assoc.
Qed.

Lemma split_from_nonempty (sep s : string) (skip : nat) :
  Py.split_from sep skip s <> [].
Proof.
  revert skip. induction s as [|c s IH]; intros skip;
    cbn [Py.split_from]; [discriminate|].
  destruct skip as [|k]; [|apply IH].
  destruct (Py.startswith (String c s) sep); [discriminate|].
  destruct (Py.split_from sep 0 s); discriminate.
Qed.

Lemma first_piece_prefix (sep s piece : string) (rest : list string) :
  Py.split_from sep 0 s = piece :: rest -> exists t, s = piece ++ t.
Proof.
  revert piece rest. induction s as [|c s IH]; intros piece rest.
  - cbn [Py.split_from]. intros E. injection E as <- _. now exists "".
  - cbn [Py.split_from]. destruct (Py.startswith (String c s) sep).
    + intros E. injection E as <- _. now exists (String c s).
    + destruct (Py.split_from sep 0 s) as [|p0 rest0] eqn:Hs.
      * now apply split_from_nonempty in Hs.
      * intros E. injection E as <- _.
        destruct (IH p0 rest0 eq_refl) as [t ->]. now exists t.
Qed.

(** No piece of a split holds the separator. *)
Lemma pieces_without_separator (sep s piece : string) (skip : nat) :
  sep <> "" -> In piece (Py.split_from sep skip s) ->
  Py.contains sep piece = false.
Proof.
  intros Hsep. assert (Hempty : Py.contains sep "" = false)
    by (destruct sep; [contradiction | reflexivity]).
  revert skip piece. induction s as [|c s IH]; intros skip piece;
    cbn [Py.split_from].
  - intros [<- | []]. exact Hempty.
  - destruct skip as [|k]; [|apply IH].
    destruct (Py.startswith (String c s) sep) eqn:Hstart.
    + intros [<- | Hin]; [exact Hempty | now apply IH in Hin].
    + destruct (Py.split_from sep 0 s) as [|p0 rest0] eqn:Hs.
      * now apply split_from_nonempty in Hs.
      * intros [<- | Hin].
        -- cbn [Py.contains]. apply orb_false_iff. split.
           ++ destruct (Py.startswith (String c p0) sep) eqn:Hp;
                [|reflexivity].
              destruct (first_piece_prefix _ _ Hs) as [t Ht].
              apply (startswith_extend _ t) in Hp. cbn in Hp.
              rewrite <- Ht in Hp. congruence.
           ++ apply (IH 0). rewrite Hs. now left.
        -- apply (IH 0). rewrite Hs. now right.
Qed.

Lemma contains_strip (sep s : string) :
  Py.contains sep (Py.strip s) = true -> Py.contains sep s = true.
Proof.
  rewrite !contains_iff. intros [p [q Hs]].
  destruct (strip_split s) as [w1 [w2 [H _]]].
  exists (w1 ++ p), (q ++ w2). rewrite H at 1. rewrite Hs.
  now rewrite !append_assoc.
Qed.

(** Lower-case texts have lower-case pieces. *)
Lemma lower_cons (c : ascii) (s : string) :
  Py.lower (String c s) = String c s ->
  Py.lower_char c = c /\ Py.lower s = s.
Proof. cbn [Py.lower]. intros E. now injection E. Qed.

Lemma lower_pieces (sep s piece : string) (skip : nat) :
  Py.lower s = s -> In piece (Py.split_from sep skip s) ->
  Py.lower piece = piece.
Proof.
  revert skip piece. induction s as [|c s IH]; intros skip piece Hs;
    cbn [Py.split_from].
  - now intros [<- | []].
  - apply lower_cons in Hs as [Hc Hs].
    destruct skip as [|k]; [|now apply IH].
    destruct (Py.startswith (String c s) sep).
    + intros [<- | Hin]; [reflexivity | now apply IH in Hin].
    + destruct (Py.split_from sep 0 s) as [|p0 rest0] eqn:Hp.
      * now apply split_from_nonempty in Hp.
      * intros [<- | Hin].
        -- cbn [Py.lower]. rewrite Hc. f_equal.
           apply (IH 0); [assumption | rewrite Hp; now left].
        -- apply (IH 0); [assumption | rewrite Hp; now right].
Qed.

Lemma lower_lstrip (s : string) :
  Py.lower s = s -> Py.lower (Py.lstrip s) = Py.lstrip s.
Proof.
  induction s as [|c s IH]; [reflexivity|].
  intros Hs. cbn [Py.lstrip]. destruct (Py.isspace c); [|assumption].
  apply lower_cons in Hs as [_ Hs]. auto.
Qed.

Lemma lower_rstrip (p : ascii -> bool) (s : string) :
  Py.lower s = s -> Py.lower (Py.rstrip_with p s) = Py.rstrip_with p s.
Proof.
  induction s as [|c s IH]; [reflexivity|].
  intros Hs. apply lower_cons in Hs as [Hc Hs]. specialize (IH Hs).
  cbn [Py.rstrip_with]. destruct (Py.rstrip_with p s) as [|d r].
  - destruct (p c); [reflexivity|]. cbn [Py.lower]. now rewrite Hc.
  - cbn [Py.lower] in IH |- *. now rewrite Hc, IH.
Qed.

Lemma lower_strip (s : string) :
  Py.lower s = s -> Py.lower (Py.strip s) = Py.strip s.
Proof. intros Hs. unfold Py.strip. now apply lower_lstrip, lower_rstrip. Qed.

Lemma find_single_response_returns (generate : Generate)
    (self : GenerativeUserClone) (user_input : string) (rng : Random) :
  (exists result, generate user_input rng = Some result) ->
  exists result,
    find_single_response_in generate self user_input rng = Some result.
Proof.
  intros Hgen. unfold find_single_response_in.
  destruct (find_retrieval_response self user_input) as [[[r|] m] d];
    [|assumption].
  destruct (Py.truthy r && should_use_personal_response user_input d);
    [now eexists | assumption].
Qed.

Lemma answer_parts_returns (single : Generate) (parts : list string) :
  (forall part rng, In part parts ->
     exists result, single (Py.strip part) rng = Some result) ->
  forall responses rng,
    exists result, answer_parts single parts responses rng = Some result.
Proof.
  induction parts as [|part parts IH]; intros Hsingle responses rng.
  - now eexists.
  - cbn [answer_parts].
    assert (Hrest : forall p g, In p parts ->
                      exists result, single (Py.strip p) g = Some result)
      by (intros p g Hp; apply Hsingle; now right).
    destruct (Py.truthy (Py.strip part)
              && Nat.ltb 3 (String.length (Py.strip part)));
      [|now apply IH].
    destruct (Hsingle part rng (or_introl eq_refl)) as [[response rng1] ->].
    now apply IH.
Qed.

Lemma handle_multiple_questions_returns (generate : Generate)
    (self : GenerativeUserClone) (user_input : string) (rng : Random) :
  (forall part g, In part (Py.split user_input " and ") ->
     exists result, generate (Py.strip part) g = Some result) ->
  exists result,
    handle_multiple_questions_in generate self user_input rng = Some result.
Proof.
  intros Hgen. unfold handle_multiple_questions_in.
  destruct (negb (Py.any_in conjunctions (Py.lower user_input)));
    [now eexists|].
  destruct (Py.contains " and " (Py.lower user_input)).
  - assert (Hsingle : forall part g,
              In part (Py.split user_input " and ") ->
              exists result,
                find_single_response_in generate self (Py.strip part) g
                = Some result)
      by (intros part g Hin; apply find_single_response_returns;
          now apply Hgen).
    destruct (@answer_parts_returns (find_single_response_in generate self)
                (Py.split user_input " and ") Hsingle [] rng)
      as [[responses rng1] ->].
    destruct (Nat.ltb 1 (List.length responses)); [|now eexists].
    destruct (combine_responses responses rng1). now eexists.
  - destruct (Nat.ltb 1 (List.length (@nil string))); [|now eexists].
    destruct (combine_responses [] rng). now eexists.
Qed.

Lemma generate_creative_response_of_multiple (fuel : nat)
    (self : GenerativeUserClone) (user_input : string) (rng : Random) :
  (exists result,
     handle_multiple_questions_in (generate_creative_response fuel self)
       self user_input rng = Some result) ->
  exists result,
    generate_creative_response (S fuel) self user_input rng = Some result.
Proof.
  intros [[multi rng1] H]. rewrite generate_creative_response_step, H.
  cbn zeta. destruct multi as [m|]; [destruct (Py.truthy m)|]; now eexists.
Qed.

(** Two nested calls are enough when no clause has the conjunction left
    in its lower-cased text. *)
Lemma generate_creative_response_two_calls (fuel : nat)
    (self : GenerativeUserClone) (user_input : string) (rng : Random) :
  (forall part, In part (Py.split user_input " and ") ->
     Py.contains " and " (Py.lower (Py.strip part)) = false) ->
  exists result,
    generate_creative_response (S (S fuel)) self user_input rng = Some result.
Proof.
  intros Hparts. apply generate_creative_response_of_multiple.
  apply handle_multiple_questions_returns. intros part g Hin.
  rewrite (generate_creative_response_without_and fuel self _ g
             (Hparts part Hin)).
  now eexists.
Qed.

Lemma generate_response_of_creative (fuel : nat)
    (self : GenerativeUserClone) (user_input : string) (rng : Random) :
  (forall clone, exists result,
     generate_creative_response fuel clone user_input rng = Some result) ->
  exists result, generate_response fuel self user_input rng = Some result.
Proof.
  intros Hgen. unfold generate_response.
  destruct (if models_loaded self then (self, true) else load_models self)
    as [ready [|]]; cbn [negb]; [|now eexists].
  destruct (Hgen ready) as [[r rng1] ->].
  destruct (conversations ready); [now eexists|].
  destruct (is_simple_greeting user_input); [now eexists|].
  destruct (find_retrieval_response ready user_input) as [[[stored|] m] d];
    [|now eexists].
  destruct (Py.truthy stored
            && should_use_personal_response user_input d);
    now eexists.
Qed.

Lemma lower_case_clauses (user_input part : string) :
  Py.lower user_input = user_input ->
  In part (Py.split user_input " and ") ->
  Py.contains " and " (Py.lower (Py.strip part)) = false.
Proof.
  intros Hlower Hin.
  pose proof (@lower_pieces " and " user_input part 0 Hlower Hin) as Hp.
  rewrite (@lower_strip part Hp).
  destruct (Py.contains " and " (Py.strip part)) eqn:Hc; [|reflexivity].
  apply contains_strip in Hc.
  assert (Hsep : " and " <> "") by discriminate.
  rewrite (@pieces_without_separator " and " user_input part 0 Hsep Hin)
    in Hc.
  discriminate Hc.
Qed.

(** X7. The recursion is two calls deep at most when no clause of the
    split has [" and "] left in its lower-cased, trimmed text: with fuel
    for two nested calls of [generate_creative_response],
    [generate_response] returns an answer on every clone. *)
Theorem generate_response_returns_on_plain_clauses (fuel : nat)
    (self : GenerativeUserClone) (user_input : string) (rng : Random) :
  (forall part, In part (Py.split user_input " and ") ->
     Py.contains " and " (Py.lower (Py.strip part)) = false) ->
  exists result,
    generate_response (S (S fuel)) self user_input rng = Some result.
Proof.
  intros Hparts. apply generate_response_of_creative. intros clone.
  now apply generate_creative_response_two_calls.
Qed.

(** X8. Every text that lower-casing leaves unchanged is answered: on a
    lower-case input [generate_response] returns on every clone, for every
    random state, with fuel for two nested calls. *)
Theorem generate_response_returns_on_lower_case (fuel : nat)
    (self : GenerativeUserClone) (user_input : string) (rng : Random) :
  Py.lower user_input = user_input ->
  exists result,
    generate_response (S (S fuel)) self user_input rng = Some result.
Proof.
  intros Hlower. apply generate_response_of_creative. intros clone.
  apply generate_creative_response_two_calls. intros part Hin.
  now apply lower_case_clauses with (user_input := user_input).
Qed.

End Clauses.

Section Conjunctions.

Context {sk : Sklearn}.

Lemma lower_length (s : string) :
  String.length (Py.lower s) = String.length s.
Proof. induction s as [|c s IH]; cbn; [reflexivity | now rewrite IH]. Qed.

Lemma contains_length (w s : string) :
  Py.contains w s = true -> String.length w <= String.length s.
Proof.
  rewrite contains_iff. intros [p [q ->]]. rewrite !length_append. lia.
Qed.

Lemma long_clause_test (part : string) :
  Py.truthy part && Nat.ltb 3 (String.length part)
  = Nat.ltb 3 (String.length part).
Proof. now destruct part. Qed.

(** A text with the conjunction in upper or mixed case only is its own
    single clause, and asking for its answer asks for it again. *)
Lemma generate_creative_response_stuck (self : GenerativeUserClone)
    (text : string) :
  Py.contains " and " text = false ->
  Py.contains " and " (Py.lower text) = true ->
  Py.strip text = text ->
  retrieval_accepts self text = false ->
  forall fuel rng, generate_creative_response fuel self text rng = None.
Proof.
  intros Habsent Hlower Hstrip Hdeclined.
  assert (Hlong : Nat.ltb 3 (String.length text) = true).
  { apply Nat.ltb_lt. apply contains_length in Hlower.
    rewrite lower_length in Hlower. cbn in Hlower. lia. }
  induction fuel as [|fuel IH]; intros rng; [reflexivity|].
  rewrite generate_creative_response_step.
  unfold handle_multiple_questions_in.
  assert (Hany : Py.any_in conjunctions (Py.lower text) = true)
    by (apply any_in_iff; exists " and "; split; [now left | assumption]).
  rewrite Hany, Hlower. cbn [negb]. rewrite (split_absent _ _ Habsent).
  cbn [answer_parts]. rewrite Hstrip, long_clause_test, Hlong.
  now rewrite (find_single_response_declined _ _ _ _ Hdeclined), IH.
Qed.

(** X9. The defect behind the input "A AND B" is a class of inputs: a
    trimmed text that holds [" and "] only in upper or mixed case, and for
    which no stored response is accepted, is never answered by a clone
    with loaded models, whatever the fuel. *)
Theorem generate_response_upper_case_conjunction (fuel : nat)
    (self : GenerativeUserClone) (text : string) (rng : Random) :
  models_loaded self = true ->
  Py.contains " and " text = false ->
  Py.contains " and " (Py.lower text) = true ->
  Py.strip text = text ->
  retrieval_accepts self text = false ->
  generate_response fuel self text rng = None.
Proof.
  intros Hloaded Habsent Hlower Hstrip Hdeclined.
  unfold generate_response. rewrite Hloaded. cbn [negb].
  rewrite (@generate_creative_response_stuck self text
             Habsent Hlower Hstrip Hdeclined).
  destruct (conversations self); [reflexivity|].
  destruct (is_simple_greeting text); [reflexivity|].
  unfold retrieval_accepts in Hdeclined.
  destruct (find_retrieval_response self text) as [[[r|] m] d];
    [|reflexivity].
  now rewrite Hdeclined.
Qed.

Lemma answer_parts_count (single : Generate) (parts : list string) :
  forall responses rng out rng',
    answer_parts single parts responses rng = Some (out, rng') ->
    List.length out
    <= List.length responses + List.length (filter long_clause parts).
Proof.
  induction parts as [|part parts IH]; intros responses rng out rng'.
  - cbn. intros E. injection E as <- _. lia.
  - cbn [answer_parts filter]. rewrite long_clause_test.
    unfold long_clause at 1.
    destruct (Nat.ltb 3 (String.length (Py.strip part))).
    + destruct (single (Py.strip part) rng) as [[response rng1]|];
        [|discriminate].
      intros E. apply IH in E. cbn [List.length].
      destruct (Py.truthy response); [|lia].
      rewrite length_app in E. cbn in E. lia.
    + apply IH.
Qed.

(** X10. [handle_multiple_questions] returns a combined response only
    when the lower-cased text holds [" and "] and at least two clauses of
    the split of the original text have more than three characters after
    trimming; the four other conjunctions alone never give one. *)
Theorem handle_multiple_questions_needs_two_clauses (fuel : nat)
    (self : GenerativeUserClone) (user_input : string) (rng rng' : Random)
    (combined : string) :
  handle_multiple_questions fuel self user_input rng
  = Some (Some combined, rng') ->
  Py.contains " and " (Py.lower user_input) = true
  /\ 2 <= List.length (filter long_clause (Py.split user_input " and ")).
Proof.
  unfold handle_multiple_questions, handle_multiple_questions_in.
  destruct (negb (Py.any_in conjunctions (Py.lower user_input)));
    [discriminate|].
  destruct (Py.contains " and " (Py.lower user_input)).
  - destruct (answer_parts _ (Py.split user_input " and ") [] rng)
      as [[responses rng1]|] eqn:Hparts; [|discriminate].
    destruct (Nat.ltb 1 (List.length responses)) eqn:Hmany.
    + intros _. split; [reflexivity|].
      apply answer_parts_count in Hparts. apply Nat.ltb_lt in Hmany.
      cbn [List.length] in Hparts. lia.
    + discriminate.
  - cbn. discriminate.
Qed.


(** X12. The punctuation pass establishes its style and is idempotent:
    after [excited] the text ends with an exclamation mark, after [casual]
    it does not end with a full stop, after [thoughtful] it holds one of
    [.], [!], [?]; a second pass with the same style changes nothing. *)
Theorem punctuation_pass_establishes_style (text : string) :
  Py.endswith (punctuation_pass "excited" text) "!" = true
  /\ Py.endswith (punctuation_pass "casual" text) "." = false
  /\ Py.any_in ["."; "!"; "?"] (punctuation_pass "thoughtful" text) = true
  /\ forall style,
       punctuation_pass style (punctuation_pass style text)
       = punctuation_pass style text.
Proof.
  assert (Hexcited : Py.endswith (punctuation_pass "excited" text) "!" = true).
  { unfold punctuation_pass. change (String.eqb "excited" "excited") with true.
    cbn [andb]. destruct (Py.endswith text "!") eqn:He; cbn [negb].
    - exact He.
    - apply endswith_iff. now eexists. }
  assert (Hcasual : Py.endswith (punctuation_pass "casual" text) "." = false).
  { unfold punctuation_pass.
    change (String.eqb "casual" "excited") with false.
    change (String.eqb "casual" "thoughtful") with false.
    change (String.eqb "casual" "casual") with true.
    cbn [andb]. destruct (Py.endswith text ".") eqn:He.
    - apply rstrip_dots_no_trailing_dot.
    - exact He. }
  assert (Hthoughtful :
            Py.any_in ["."; "!"; "?"] (punctuation_pass "thoughtful" text)
            = true).
  { unfold punctuation_pass.
    change (String.eqb "thoughtful" "excited") with false.
    change (String.eqb "thoughtful" "thoughtful") with true.
    cbn [andb]. destruct (Py.any_in ["."; "!"; "?"] text) eqn:Ha; cbn [negb].
    - exact Ha.
    - apply any_in_iff. exists ".". split; [now left|].
      apply contains_iff. exists text, "..". reflexivity. }
  conjuncts; try assumption.
  intros style.
  destruct (String.eqb_spec style "excited") as [-> | Hne1].
  { revert Hexcited. generalize (punctuation_pass "excited" text).
    intros r Hr. unfold punctuation_pass.
    change (String.eqb "excited" "excited") with true.
    change (String.eqb "excited" "thoughtful") with false.
    change (String.eqb "excited" "casual") with false.
    now rewrite Hr. }
  destruct (String.eqb_spec style "thoughtful") as [-> | Hne2].
  { revert Hthoughtful. generalize (punctuation_pass "thoughtful" text).
    intros r Hr. unfold punctuation_pass.
    change (String.eqb "thoughtful" "excited") with false.
    change (String.eqb "thoughtful" "thoughtful") with true.
    change (String.eqb "thoughtful" "casual") with false.
    now rewrite Hr. }
  destruct (String.eqb_spec style "casual") as [-> | Hne3].
  { revert Hcasual. generalize (punctuation_pass "casual" text).
    intros r Hr. unfold punctuation_pass.
    change (String.eqb "casual" "excited") with false.
    change (String.eqb "casual" "thoughtful") with false.
    change (String.eqb "casual" "casual") with true.
    now rewrite Hr. }
  apply String.eqb_neq in Hne1, Hne2, Hne3.
  unfold punctuation_pass. now rewrite Hne1, Hne2, Hne3.
Qed.

End Conjunctions.

(* ================================================================== *)
(** ** Loading, training and learning *)
(* ================================================================== *)

Section Persistence.

Context {sk : Sklearn}.

(** X13. [load_models] succeeds exactly when all four files exist; then
    the four attributes are the contents of the files and the load flag
    is set.  It never writes to the model directory; when it fails the
    load flag and the style profile are the ones before the call, and
    without a vectorizer file the whole clone is. *)
Theorem load_models_all_or_nothing (self : GenerativeUserClone) :
  (snd (load_models self) = true
   <-> exists v k c u,
         vectorizer_joblib (model_dir self) = Some v
         /\ knn_model_joblib (model_dir self) = Some k
         /\ conversations_joblib (model_dir self) = Some c
         /\ user_style_joblib (model_dir self) = Some u)
  /\ (forall v k c u,
        vectorizer_joblib (model_dir self) = Some v ->
        knn_model_joblib (model_dir self) = Some k ->
        conversations_joblib (model_dir self) = Some c ->
        user_style_joblib (model_dir self) = Some u ->
        load_models self
        = ({| model_dir := model_dir self; vectorizer := Some v;
              knn_model := Some k; conversations := c;
              models_loaded := true; user_style := u |}, true))
  /\ model_dir (fst (load_models self)) = model_dir self
  /\ (snd (load_models self) = false ->
        models_loaded (fst (load_models self)) = models_loaded self
        /\ user_style (fst (load_models self)) = user_style self)
  /\ (vectorizer_joblib (model_dir self) = None ->
        load_models self = (self, false)).
Proof.
  destruct self as [[dv dk dc du] vv kk cc ml us].
  unfold load_models.
  cbn [model_dir vectorizer_joblib knn_model_joblib conversations_joblib
       user_style_joblib set_vectorizer set_knn_model set_conversations
       set_user_style set_models_loaded].
  destruct dv as [v|]; [destruct dk as [k|]; [destruct dc as [c|];
                        [destruct du as [u|]|]|]|];
    cbn [fst snd model_dir models_loaded user_style];
    conjuncts; try reflexivity; try discriminate;
    try (intros _; split; reflexivity).
  - split; [intros _; now exists v, k, c, u | reflexivity].
  - intros ? ? ? ? E1 E2 E3 E4.
    injection E1 as <-. injection E2 as <-.
    injection E3 as <-. injection E4 as <-. reflexivity.
  - split; [intros E; discriminate E
           | intros [? [? [? [? [_ [_ [_ E]]]]]]]; discriminate E].
  - split; [intros E; discriminate E
           | intros [? [? [? [? [_ [_ [E _]]]]]]]; discriminate E].
  - split; [intros E; discriminate E
           | intros [? [? [? [? [_ [E _]]]]]]; discriminate E].
  - split; [intros E; discriminate E
           | intros [? [? [? [? [E _]]]]]; discriminate E].
Qed.

(** X14. Training round trip: when [train] runs to its end, the corpus is
    the pairing of inputs and responses, the load flag is set, and a fresh
    clone on the same model directory loads exactly the trained clone. *)
Theorem train_then_load (env : Runtime) (self after : GenerativeUserClone)
    (inputs responses : list string) :
  train env self inputs responses = (after, true) ->
  conversations after = combine inputs responses
  /\ models_loaded after = true
  /\ load_models (init (model_dir after)) = (after, true).
Proof.
  unfold train.
  destruct (fit_transform (TfidfVectorizer env) inputs) as [v [X|]];
    [|discriminate].
  destruct (fit (NearestNeighbors env) X) as [k [|]]; [|discriminate].
  intros E. injection E as <-.
  conjuncts; try reflexivity.
  unfold analyze_user_style. now destruct responses.
Qed.

(** X15. Training replaces everything: whether [train] runs to its end
    does not depend on the clone it is called on, and when it does the
    clone afterwards is the same whatever the clone before held, in
    memory or on disk. *)
Theorem train_forgets_prior_state (env : Runtime)
    (one other : GenerativeUserClone) (inputs responses : list string) :
  snd (train env one inputs responses) = snd (train env other inputs responses)
  /\ (snd (train env one inputs responses) = true ->
      fst (train env one inputs responses)
      = fst (train env other inputs responses)).
Proof.
  unfold train.
  destruct (fit_transform (TfidfVectorizer env) inputs) as [v [X|]];
    [|split; [reflexivity | discriminate]].
  destruct (fit (NearestNeighbors env) X) as [k [|]];
    [|split; [reflexivity | discriminate]].
  split; [reflexivity|]. intros _. cbn [fst].
  unfold analyze_user_style. now destruct responses.
Qed.

(** X16. A training run that a fit interrupts writes nothing and does not
    set the load flag, although the corpus and the style profile in memory
    are already the new ones. *)
Theorem train_interrupted (env : Runtime) (self after : GenerativeUserClone)
    (inputs responses : list string) :
  train env self inputs responses = (after, false) ->
  model_dir after = model_dir self
  /\ models_loaded after = models_loaded self
  /\ conversations after = combine inputs responses
  /\ user_style after
     = user_style (analyze_user_style env self responses).
Proof.
  unfold train.
  destruct (fit_transform (TfidfVectorizer env) inputs) as [v [X|]].
  - destruct (fit (NearestNeighbors env) X) as [k [|]]; [discriminate|].
    intros E. injection E as <-.
    unfold analyze_user_style. destruct responses; now conjuncts.
  - intros E. injection E as <-.
    unfold analyze_user_style. destruct responses; now conjuncts.
Qed.

End Persistence.

Section Relearning.

Context {sk : Sklearn}.

(** X17. Learning keeps the model directory in step with the clone: on a
    clone that a fresh load of its directory reproduces, a learning call
    whose re-fit raises nothing gives a clone that a fresh load of the
    new directory reproduces again, with the pair appended and with the
    style profile of before, on disk as in memory. *)
Theorem learn_then_load (self : GenerativeUserClone)
    (user_input user_response : string)
    (v v' : Vectorizer) (k k' : KnnModel) (X : Matrix) :
  load_models (init (model_dir self)) = (self, true) ->
  vectorizer self = Some v ->
  knn_model self = Some k ->
  fit_transform v
    (map fst (conversations self ++ [(user_input, user_response)]))
  = (v', Some X) ->
  fit k X = (k', true) ->
  load_models
    (init (model_dir (learn_from_chat self user_input user_response true)))
  = (learn_from_chat self user_input user_response true, true)
  /\ conversations (learn_from_chat self user_input user_response true)
     = (conversations self ++ [(user_input, user_response)])%list
  /\ user_style_joblib
       (model_dir (learn_from_chat self user_input user_response true))
     = Some (user_style self).
Proof.
  destruct self as [[dv dk dc du] vv kk cc ml us].
  unfold load_models, init.
  cbn [model_dir vectorizer_joblib knn_model_joblib conversations_joblib
       user_style_joblib set_vectorizer set_knn_model set_conversations
       set_user_style set_models_loaded vectorizer knn_model conversations].
  destruct dv as [v0|]; [|discriminate].
  destruct dk as [k0|]; [|discriminate].
  destruct dc as [c0|]; [|discriminate].
  destruct du as [u0|]; [|discriminate].
  intros Hsync Hv Hk Hfit Hknn.
  injection Hsync as E1 E2 E3 E4 E5. subst vv kk cc ml us.
  injection Hv as Ev. injection Hk as Ek. subst v0 k0.
  unfold learn_from_chat.
  cbn [vectorizer knn_model conversations set_conversations model_dir].
  rewrite Hfit.
  cbn [set_vectorizer vectorizer knn_model conversations model_dir
       models_loaded user_style].
  rewrite Hknn.
  cbn. now conjuncts.
Qed.

(** X18. A learning call whose re-fit raises leaves the model directory
    behind the clone: the pair is in the corpus in memory, and a fresh
    load of the directory gives the corpus without it. *)
Theorem learn_refit_failure_forgotten_on_reload (self : GenerativeUserClone)
    (user_input user_response : string)
    (v v' : Vectorizer) (k : KnnModel) :
  load_models (init (model_dir self)) = (self, true) ->
  vectorizer self = Some v ->
  knn_model self = Some k ->
  fit_transform v
    (map fst (conversations self ++ [(user_input, user_response)]))
  = (v', None) ->
  conversations (learn_from_chat self user_input user_response true)
  = (conversations self ++ [(user_input, user_response)])%list
  /\ conversations
       (fst (load_models
               (init (model_dir
                        (learn_from_chat self user_input user_response
                                         true)))))
     = conversations self.
Proof.
  destruct self as [[dv dk dc du] vv kk cc ml us].
  unfold load_models, init.
  cbn [model_dir vectorizer_joblib knn_model_joblib conversations_joblib
       user_style_joblib set_vectorizer set_knn_model set_conversations
       set_user_style set_models_loaded vectorizer knn_model conversations].
  destruct dv as [v0|]; [|discriminate].
  destruct dk as [k0|]; [|discriminate].
  destruct dc as [c0|]; [|discriminate].
  destruct du as [u0|]; [|discriminate].
  intros Hsync Hv Hk Hfit.
  injection Hsync as E1 E2 E3 E4 E5. subst vv kk cc ml us.
  injection Hv as Ev. injection Hk as Ek. subst v0 k0.
  unfold learn_from_chat.
  cbn [vectorizer knn_model conversations set_conversations model_dir].
  rewrite Hfit. cbn. now split.
Qed.

End Relearning.

(* ================================================================== *)
(** ** The style profile *)
(* ================================================================== *)

Section Profile.

Context {sk : Sklearn}.

Lemma punctuation_of_class (response : string) :
  In (punctuation_of response) ["excited"; "thoughtful"; "neutral"; "casual"].
Proof.
  unfold punctuation_of.
  destruct (Py.contains "!" response); [cbn; tauto|].
  destruct (Py.contains "..." response || Py.contains ".." response);
    [cbn; tauto|].
  destruct (Py.endswith response "."); cbn; tauto.
Qed.

Lemma max_by_count_spec (punctuations rest : list string) :
  forall best,
    In (max_by_count punctuations best rest) (best :: rest)
    /\ forall x, In x (best :: rest) ->
         count_occ string_dec punctuations x
         <= count_occ string_dec punctuations
              (max_by_count punctuations best rest).
Proof.
  induction rest as [|y rest IH]; intros best; cbn [max_by_count].
  - split; [now left|]. intros x [<- | []]. lia.
  - destruct (Nat.ltb_spec (count_occ string_dec punctuations best)
                           (count_occ string_dec punctuations y)) as [Hlt | Hge].
    + destruct (IH y) as [Hin Hmax]. split.
      * now right.
      * intros x [<- | Hx]; [|now apply Hmax].
        specialize (Hmax y (or_introl eq_refl)). lia.
    + destruct (IH best) as [Hin Hmax]. split.
      * destruct Hin as [<- | Hin]; [now left | right; now right].
      * intros x [<- | [<- | Hx]].
        -- apply Hmax. now left.
        -- specialize (Hmax best (or_introl eq_refl)). lia.
        -- apply Hmax. now right.
Qed.

Lemma analyze_user_style_fields (env : Runtime) (self : GenerativeUserClone)
    (responses : list string) (styles : Styles) :
  user_style (analyze_user_style env self responses) = Some styles ->
  responses <> []
  /\ punctuation_style styles
     = analyze_punctuation_style
         (set_order env (map punctuation_of responses)) responses
  /\ formality_level styles
     = (if Nat.ltb (count_in casual_words (all_words_of responses))
                   (count_in formal_words (all_words_of responses))
        then "formal"
        else if Nat.ltb (count_in formal_words (all_words_of responses))
                        (count_in casual_words (all_words_of responses))
        then "casual" else "neutral")
  /\ common_words styles = most_common 10 (Counter (all_words_of responses)).
Proof.
  destruct responses as [|first others]; [discriminate|].
  intros E. injection E as <-. now conjuncts.
Qed.

(** X19. The profile of a non-empty list of responses: its punctuation
    style is the class of one of the responses and no class is more
    frequent among them, whatever the iteration order of the set of
    classes; punctuation style and formality level are among the values
    that [apply_user_style] tests.  An empty list, and only an empty
    list, gives the empty profile. *)
Theorem analyze_user_style_mode (env : Runtime) (self : GenerativeUserClone)
    (responses : list string) :
  (forall class,
     In class (set_order env (map punctuation_of responses))
     <-> In class (map punctuation_of responses)) ->
  (responses = [] <-> user_style (analyze_user_style env self responses) = None)
  /\ forall styles,
       user_style (analyze_user_style env self responses) = Some styles ->
       In (punctuation_style styles)
          ["excited"; "thoughtful"; "neutral"; "casual"]
       /\ (exists response,
             In response responses
             /\ punctuation_of response = punctuation_style styles)
       /\ (forall response,
             In response responses ->
             count_occ string_dec (map punctuation_of responses)
                       (punctuation_of response)
             <= count_occ string_dec (map punctuation_of responses)
                          (punctuation_style styles))
       /\ In (formality_level styles) ["formal"; "casual"; "neutral"].
Proof.
  intros Horder. split.
  - destruct responses; cbn; split; congruence.
  - intros styles Hstyle.
    apply analyze_user_style_fields in Hstyle as [Hne [Hp [Hf _]]].
    rewrite Hp, Hf.
    assert (Hmode :
      In (analyze_punctuation_style
            (set_order env (map punctuation_of responses)) responses)
         (map punctuation_of responses)
      /\ forall x, In x (map punctuation_of responses) ->
           count_occ string_dec (map punctuation_of responses) x
           <= count_occ string_dec (map punctuation_of responses)
                (analyze_punctuation_style
                   (set_order env (map punctuation_of responses)) responses)).
    { unfold analyze_punctuation_style.
      destruct (set_order env (map punctuation_of responses))
        as [|best rest] eqn:Hiter.
      - exfalso. destruct responses as [|first others]; [contradiction|].
        apply (proj2 (Horder (punctuation_of first))). now left.
      - destruct (max_by_count_spec (map punctuation_of responses) rest best)
          as [Hin Hmax].
        split.
        + now apply Horder.
        + intros x Hx. apply Hmax. now apply Horder. }
    destruct Hmode as [Hin Hmax].
    apply in_map_iff in Hin as Hresponse.
    destruct Hresponse as [response [Hclass Hresponse]].
    conjuncts.
    + rewrite <- Hclass. apply punctuation_of_class.
    + now exists response.
    + intros r Hr. apply Hmax. now apply in_map.
    + destruct (Nat.ltb _ _); [cbn; tauto|].
      destruct (Nat.ltb _ _); cbn; tauto.
Qed.

End Profile.

Section WordCounts.

Context {sk : Sklearn}.

Lemma counter_add_keys (word : string) (counts : list (string * nat)) :
  map fst (counter_add word counts)
  = if in_dec string_dec word (map fst counts)
    then map fst counts
    else (map fst counts ++ [word])%list.
Proof.
  induction counts as [|[key n] counts IH]; cbn [counter_add map fst].
  - now destruct (in_dec string_dec word []).
  - destruct (String.eqb_spec key word) as [-> | Hne].
    + destruct (in_dec string_dec word (word :: map fst counts)) as [_ | Hn];
        [reflexivity | exfalso; apply Hn; now left].
    + cbn [map fst]. rewrite IH.
      destruct (in_dec string_dec word (map fst counts)) as [Hin | Hnin];
        destruct (in_dec string_dec word (key :: map fst counts))
          as [Hin' | Hnin']; try reflexivity.
      * exfalso. apply Hnin'. now right.
      * exfalso. destruct Hin' as [E | Hin']; [now apply Hne | now apply Hnin].
Qed.

Lemma counter_add_nodup (word : string) (counts : list (string * nat)) :
  NoDup (map fst counts) -> NoDup (map fst (counter_add word counts)).
Proof.
  intros Hnd. rewrite counter_add_keys.
  destruct (in_dec string_dec word (map fst counts)) as [Hin | Hnin];
    [assumption|].
  apply NoDup_app; [assumption | repeat constructor; intros [] |].
  intros x Hx [<- | []]. now apply Hnin.
Qed.

Lemma counter_add_in (word : string) (counts : list (string * nat)) :
  NoDup (map fst counts) ->
  forall x n,
    In (x, n) (counter_add word counts)
    <-> (x <> word /\ In (x, n) counts)
        \/ (x = word
            /\ ((exists m, In (word, m) counts /\ n = S m)
                \/ (~ In word (map fst counts) /\ n = 1))).
Proof.
  induction counts as [|[key m] counts IH]; intros Hnd x n;
    cbn [counter_add].
  - cbn. split.
    + intros [E | []]. injection E as <- <-. right. split; [reflexivity|].
      right. now split.
    + intros [[_ []] | [-> [[m [[] _]] | [_ ->]]]]. now left.
  - cbn [map fst] in Hnd. apply NoDup_cons_iff in Hnd as [Hkey Hnd].
    destruct (String.eqb_spec key word) as [-> | Hne].
    + split.
      * intros [E | Hin].
        -- injection E as <- <-. right. split; [reflexivity|]. left.
           exists m. split; [now left | reflexivity].
        -- left. split; [|now right]. intros ->. apply Hkey.
           apply in_map_iff. now exists (word, n).
      * intros [[Hx [E | Hin]] | [-> [[m' [[E | Hin] ->]] | [Hnin _]]]].
        -- injection E as -> _. now contradiction Hx.
        -- now right.
        -- injection E as <-. now left.
        -- exfalso. apply Hkey. apply in_map_iff. now exists (word, m').
        -- exfalso. apply Hnin. now left.
    + cbn [In]. rewrite (IH Hnd). split.
      * intros [E | [[Hx Hin] | [-> [[m' [Hin ->]] | [Hnin ->]]]]].
        -- injection E as <- <-. left. split; [assumption | now left].
        -- left. split; [assumption | now right].
        -- right. split; [reflexivity|]. left. exists m'.
           split; [now right | reflexivity].
        -- right. split; [reflexivity|]. right. split; [|reflexivity].
           intros [E | Hin]; [now apply Hne | now apply Hnin].
      * intros [[Hx [E | Hin]] | [-> [[m' [[E | Hin] ->]] | [Hnin ->]]]].
        -- now left.
        -- right. left. now split.
        -- injection E as E _. now contradiction Hne.
        -- right. right. split; [reflexivity|]. left. now exists m'.
        -- right. right. split; [reflexivity|]. right. split; [|reflexivity].
           intros Hin. apply Hnin. now right.
Qed.

Lemma count_occ_snoc (seen : list string) (word x : string) :
  count_occ string_dec (seen ++ [word]) x
  = count_occ string_dec seen x + (if string_dec word x then 1 else 0).
Proof.
  rewrite count_occ_app. cbn [count_occ].
  now destruct (string_dec word x).
Qed.

Lemma counted_add (counts : list (string * nat)) (seen : list string)
    (word : string) :
  counted counts seen -> counted (counter_add word counts) (seen ++ [word]).
Proof.
  intros [Hnd Hcounts]. split; [now apply counter_add_nodup|].
  intros x n. rewrite (@counter_add_in word counts Hnd), count_occ_snoc.
  destruct (string_dec word x) as [<- | Hne].
  - split.
    + intros [[Hx _] | [_ [[m [Hin ->]] | [Hnin ->]]]].
      * now contradiction Hx.
      * apply Hcounts in Hin as [-> _]. lia.
      * assert (Hzero : count_occ string_dec seen word = 0).
        { destruct (count_occ string_dec seen word) as [|c] eqn:Hc;
            [reflexivity|].
          exfalso. apply Hnin. apply in_map_iff. exists (word, S c).
          split; [reflexivity|]. apply Hcounts. split; [congruence | lia]. }
        lia.
    + intros [-> _]. right. split; [reflexivity|].
      destruct (count_occ string_dec seen word) as [|c] eqn:Hc.
      * right. split; [|reflexivity]. intros Hin.
        apply in_map_iff in Hin as [[y m] [Hy Hin]]. cbn in Hy. subst y.
        apply Hcounts in Hin. lia.
      * left. exists (S c). split; [|lia]. apply Hcounts. lia.
  - split.
    + intros [[_ Hin] | [-> _]]; [|now contradiction Hne].
      apply Hcounts in Hin. lia.
    + intros [-> Hpos]. left. split; [congruence|].
      apply Hcounts. lia.
Qed.

Lemma counted_fold (words : list string) :
  forall counts seen,
    counted counts seen ->
    counted (fold_left (fun counts word => counter_add word counts)
                       words counts)
            (seen ++ words).
Proof.
  induction words as [|word words IH]; intros counts seen H.
  - cbn. now rewrite app_nil_r.
  - cbn [fold_left].
    replace (seen ++ word :: words)%list with ((seen ++ [word]) ++ words)%list
      by (now rewrite <- app_assoc).
    now apply IH, counted_add.
Qed.

Lemma Counter_counted (words : list string) : counted (Counter words) words.
Proof.
  apply (@counted_fold words [] []). split; [constructor|].
  intros word n. cbn. split; [intros [] | lia].
Qed.

Lemma insert_by_count_permutation (item : string * nat)
    (sorted : list (string * nat)) :
  Permutation (insert_by_count item sorted) (item :: sorted).
Proof.
  induction sorted as [|other sorted IH]; cbn [insert_by_count];
    [reflexivity|].
  destruct (Nat.ltb (snd item) (snd other)); [|reflexivity].
  rewrite IH. apply perm_swap.
Qed.

Lemma insert_by_count_sorted (item : string * nat)
    (sorted : list (string * nat)) :
  StronglySorted (fun a b => snd b <= snd a) sorted ->
  StronglySorted (fun a b => snd b <= snd a) (insert_by_count item sorted).
Proof.
  induction sorted as [|other sorted IH]; intros Hs; cbn [insert_by_count].
  - repeat constructor.
  - apply StronglySorted_inv in Hs as [Hs Hall].
    destruct (Nat.ltb_spec (snd item) (snd other)) as [Hlt | Hge].
    + constructor; [now apply IH|].
      rewrite Forall_forall in Hall |- *. intros x Hx.
      apply (Permutation_in _ (insert_by_count_permutation item sorted)) in Hx.
      destruct Hx as [<- | Hx]; [lia | now apply Hall].
    + constructor; [now constructor|]. constructor; [assumption|].
      rewrite Forall_forall in Hall |- *. intros x Hx.
      specialize (Hall x Hx). cbn in Hall. lia.
Qed.

Lemma sort_by_count (counts : list (string * nat)) :
  Permutation (fold_right insert_by_count [] counts) counts
  /\ StronglySorted (fun a b => snd b <= snd a)
       (fold_right insert_by_count [] counts).
Proof.
  induction counts as [|item counts [Hperm Hsorted]]; cbn [fold_right].
  - split; [reflexivity | constructor].
  - split.
    + rewrite insert_by_count_permutation. now constructor.
    + now apply insert_by_count_sorted.
Qed.

Lemma sorted_firstn {A : Type} (R : A -> A -> Prop) (n : nat) (l : list A) :
  StronglySorted R l -> StronglySorted R (firstn n l).
Proof.
  revert n. induction l as [|x l IH]; intros [|n] Hs; cbn [firstn];
    try constructor.
  - apply StronglySorted_inv in Hs as [Hs _]. now apply IH.
  - apply StronglySorted_inv in Hs as [_ Hall].
    rewrite Forall_forall in Hall |- *. intros y Hy. apply Hall.
    rewrite <- (firstn_skipn n l). apply in_or_app. now left.
Qed.

Lemma sorted_split {A : Type} (R : A -> A -> Prop) (a b : list A) :
  StronglySorted R (a ++ b) ->
  forall x y, In x a -> In y b -> R x y.
Proof.
  induction a as [|z a IH]; intros Hs x y Hx Hy; [destruct Hx|].
  cbn in Hs. apply StronglySorted_inv in Hs as [Hs Hall].
  destruct Hx as [<- | Hx].
  - rewrite Forall_forall in Hall. apply Hall, in_or_app. now right.
  - now apply IH.
Qed.

Lemma nodup_firstn {A : Type} (n : nat) (l : list A) :
  NoDup l -> NoDup (firstn n l).
Proof.
  intros H. rewrite <- (firstn_skipn n l) in H.
  now apply NoDup_app_remove_r in H.
Qed.

(** What [Counter(words).most_common(n)] holds. *)
Lemma most_common_spec (n : nat) (words : list string) :
  List.length (most_common n (Counter words)) <= n
  /\ NoDup (map fst (most_common n (Counter words)))
  /\ (forall word c,
        In (word, c) (most_common n (Counter words)) ->
        c = count_occ string_dec words word /\ 1 <= c)
  /\ StronglySorted (fun a b => snd b <= snd a) (most_common n (Counter words))
  /\ (forall word,
        In word words ->
        In word (map fst (most_common n (Counter words)))
        \/ (List.length (most_common n (Counter words)) = n
            /\ forall entry,
                 In entry (most_common n (Counter words)) ->
                 count_occ string_dec words word <= snd entry)).
Proof.
  unfold most_common.
  destruct (Counter_counted words) as [Hnd Hcounts].
  destruct (sort_by_count (Counter words)) as [Hperm Hsorted].
  set (sorted := fold_right insert_by_count [] (Counter words)) in *.
  conjuncts.
  - apply firstn_le_length.
  - rewrite <- firstn_map. apply nodup_firstn.
    apply (Permutation_NoDup (Permutation_map fst (Permutation_sym Hperm))).
    exact Hnd.
  - intros word c Hin. apply Hcounts.
    apply (Permutation_in _ Hperm).
    rewrite <- (firstn_skipn n sorted). apply in_or_app. now left.
  - now apply sorted_firstn.
  - intros word Hword.
    assert (Hentry : In (word, count_occ string_dec words word) sorted).
    { apply (Permutation_in _ (Permutation_sym Hperm)). apply Hcounts.
      split; [reflexivity|].
      now apply (count_occ_In string_dec) in Hword. }
    rewrite <- (firstn_skipn n sorted) in Hentry.
    apply in_app_or in Hentry as [Hkept | Hdropped].
    + left. apply in_map_iff.
      exists (word, count_occ string_dec words word). now split.
    + right. split.
      * rewrite length_firstn. apply Nat.min_l.
        destruct (Nat.le_gt_cases n (List.length sorted)) as [Hle | Hgt];
          [assumption|].
        rewrite skipn_all2 in Hdropped by lia. destruct Hdropped.
      * intros entry Hin.
        rewrite <- (firstn_skipn n sorted) in Hsorted.
        exact (@sorted_split _ _ _ _ Hsorted entry _ Hin Hdropped).
Qed.

(** X20. The [common_words] of a profile are the most frequent words of
    the lower-cased responses: at most ten entries with distinct words,
    each with the exact number of occurrences of its word, in order of
    decreasing count; a word of the responses that is left out occurs no
    more often than any of the ten that are kept. *)
Theorem analyze_user_style_common_words (env : Runtime)
    (self : GenerativeUserClone) (responses : list string) (styles : Styles) :
  user_style (analyze_user_style env self responses) = Some styles ->
  List.length (common_words styles) <= 10
  /\ NoDup (map fst (common_words styles))
  /\ (forall word c,
        In (word, c) (common_words styles) ->
        c = count_occ string_dec (all_words_of responses) word /\ 1 <= c)
  /\ StronglySorted (fun a b => snd b <= snd a) (common_words styles)
  /\ (forall word,
        In word (all_words_of responses) ->
        In word (map fst (common_words styles))
        \/ (List.length (common_words styles) = 10
            /\ forall entry,
                 In entry (common_words styles) ->
                 count_occ string_dec (all_words_of responses) word
                 <= snd entry)).
Proof.
  intros Hstyle.
  apply analyze_user_style_fields in Hstyle as [_ [_ [_ ->]]].
  apply most_common_spec.
Qed.

End WordCounts.

(* ================================================================== *)
(** ** The data collector and the training pipeline *)
(* ================================================================== *)

Section Collecting.

Context {sk : Sklearn}.

Lemma combine_map_fields {A : Type} (f g : A -> string) (l : list A) :
  combine (map f l) (map g l) = map (fun x => (f x, g x)) l.
Proof. induction l as [|x l IH]; cbn; [reflexivity | now rewrite IH]. Qed.

Lemma collect_training_data (entries : list (string * string * string)) :
  forall collector,
    DataCollector.get_training_data (collect entries collector)
    = ((fst (DataCollector.get_training_data collector)
        ++ map (fun entry => snd (fst entry)) entries)%list,
       (snd (DataCollector.get_training_data collector)
        ++ map (fun entry => snd entry) entries)%list)
    /\ (entries <> [] ->
        DataCollector.data_file (collect entries collector)
        = Some (DataCollector.conversations (collect entries collector))).
Proof.
  induction entries as [|[[now ui] ur] entries IH]; intros collector.
  - cbn. rewrite !app_nil_r. split; [reflexivity | congruence].
  - unfold collect. cbn [fold_left fst snd].
    fold (collect entries
            (DataCollector.add_conversation now collector ui ur)).
    destruct (IH (DataCollector.add_conversation now collector ui ur))
      as [Hdata Hfile].
    split.
    + rewrite Hdata. unfold DataCollector.get_training_data.
      cbn [DataCollector.add_conversation DataCollector.save_data
           DataCollector.conversations fst snd map].
      rewrite !map_app. cbn [map DataCollector.input DataCollector.response].
      now rewrite <- !app_assoc.
    + intros _. destruct entries as [|entry entries]; [reflexivity|].
      apply Hfile. discriminate.
Qed.

(** X21. Collecting keeps inputs and responses aligned and saved: after
    any run of [add_conversation] calls the training data are the earlier
    inputs and responses followed by the added ones, in order and in equal
    number, and once something was added the file holds the list in
    memory, so that a new collector on that file starts with the same
    data. *)
Theorem collect_keeps_pairs (entries : list (string * string * string))
    (collector : DataCollector.SimpleDataCollector) :
  DataCollector.get_training_data (collect entries collector)
  = ((fst (DataCollector.get_training_data collector)
      ++ map (fun entry => snd (fst entry)) entries)%list,
     (snd (DataCollector.get_training_data collector)
      ++ map (fun entry => snd entry) entries)%list)
  /\ List.length (fst (DataCollector.get_training_data
                         (collect entries collector)))
     = List.length (snd (DataCollector.get_training_data
                           (collect entries collector)))
  /\ (entries <> [] ->
      DataCollector.init
        (DataCollector.data_file (collect entries collector))
      = collect entries collector).
Proof.
  destruct (collect_training_data entries collector) as [Hdata Hfile].
  conjuncts.
  - exact Hdata.
  - unfold DataCollector.get_training_data. cbn [fst snd].
    now rewrite !length_map.
  - intros Hne. specialize (Hfile Hne).
    unfold DataCollector.init. rewrite Hfile. cbn [DataCollector.load_data].
    destruct (collect entries collector) as [file conversations].
    cbn in Hfile |- *. now rewrite Hfile.
Qed.

(** X22. Training on the data of a collector loses no pair: whether or not
    the fits succeed, the corpus of the clone afterwards has one pair per
    collected conversation, in the order of collection, each with the
    input and the response of its conversation. *)
Theorem train_on_collected_data (env : Runtime) (self : GenerativeUserClone)
    (collector : DataCollector.SimpleDataCollector) :
  conversations
    (fst (train env self
            (fst (DataCollector.get_training_data collector))
            (snd (DataCollector.get_training_data collector))))
  = map (fun c => (DataCollector.input c, DataCollector.response c))
        (DataCollector.conversations collector)
  /\ List.length
       (conversations
          (fst (train env self
                  (fst (DataCollector.get_training_data collector))
                  (snd (DataCollector.get_training_data collector)))))
     = List.length (DataCollector.conversations collector).
Proof.
  assert (Hcorpus :
    conversations
      (fst (train env self
              (fst (DataCollector.get_training_data collector))
              (snd (DataCollector.get_training_data collector))))
    = map (fun c => (DataCollector.input c, DataCollector.response c))
          (DataCollector.conversations collector)).
  { unfold train, DataCollector.get_training_data. cbn [fst snd].
    rewrite <- combine_map_fields.
    destruct (fit_transform _ _) as [v [X|]].
    - destruct (fit _ X) as [k [|]]; cbn [fst];
        unfold analyze_user_style;
        now destruct (map DataCollector.response _).
    - cbn [fst]. unfold analyze_user_style.
      now destruct (map DataCollector.response _). }
  split; [exact Hcorpus|]. now rewrite Hcorpus, length_map.
Qed.

End Collecting.

(* ================================================================== *)
(** ** The further properties on the fixtures *)
(* ================================================================== *)

Lemma generate_response_never_empty_witness : "I'm doing great!" <> "".
Proof.
  eapply generate_response_never_empty
    with (fuel := 0) (user_input := "How are you?") (rng := first_choice)
         (self := trained [("how are you", "I'm doing great!");
                           ("what do you do", "I write code")] None).
  reflexivity.
Defined.

Lemma generate_response_read_only_witness :
  exists clone rng,
    clone = trained [("how are you", "I'm doing great!");
                     ("what do you do", "I write code")] None
    /\ (generate_creative_response 0
          (trained [("how are you", "I'm doing great!");
                    ("what do you do", "I write code")] None)
          "How are you?" first_choice
        = Some ("I'm doing great!", rng)
        \/ (rng = first_choice
            /\ exists inp,
                 In (inp, "I'm doing great!")
                    (conversations
                       (trained [("how are you", "I'm doing great!");
                                 ("what do you do", "I write code")] None)))).
Proof.
  eexists. eexists.
  eapply generate_response_read_only
    with (fuel := 0) (user_input := "How are you?") (rng := first_choice).
  - reflexivity.
  - reflexivity.
Defined.

Lemma generate_response_returns_on_plain_clauses_witness :
  exists result,
    generate_response 2
      (trained [("how are you", "I'm doing great!");
                ("what do you do", "I write code")] None)
      "I ate lunch and the sun is out" first_choice
    = Some result.
Proof.
  apply generate_response_returns_on_plain_clauses.
  intros part Hin. vm_compute in Hin.
  destruct Hin as [<- | [<- | []]]; reflexivity.
Defined.

Lemma generate_response_returns_on_lower_case_witness :
  exists result,
    generate_response 2 untrained "tea and milk and honey" first_choice
    = Some result.
Proof.
  apply generate_response_returns_on_lower_case. reflexivity.
Defined.

Lemma generate_response_upper_case_conjunction_witness :
  generate_response 50
    (trained [("how are you", "I'm doing great!");
              ("what do you do", "I write code")] None)
    "Tea AND Milk" first_choice
  = None.
Proof.
  apply generate_response_upper_case_conjunction; reflexivity.
Defined.

Lemma handle_multiple_questions_needs_two_clauses_witness :
  Py.contains " and " (Py.lower "I ate lunch and what do you do") = true
  /\ 2 <= List.length
            (filter long_clause
                    (Py.split "I ate lunch and what do you do" " and ")).
Proof.
  eapply handle_multiple_questions_needs_two_clauses
    with (fuel := 1) (rng := first_choice)
         (self := trained [("how are you", "I'm doing great!");
                           ("what do you do", "I write code")] None).
  reflexivity.
Defined.


Lemma load_models_all_or_nothing_witness :
  snd (load_models (persisted [("hi", "yo")] None)) = true
  /\ load_models untrained = (untrained, false).
Proof.
  destruct (load_models_all_or_nothing (persisted [("hi", "yo")] None))
    as [Hiff _].
  destruct (load_models_all_or_nothing untrained) as [_ [_ [_ [_ Hmissing]]]].
  split.
  - apply Hiff. cbn. repeat eexists.
  - apply Hmissing. reflexivity.
Defined.

Lemma train_then_load_witness :
  conversations
    (fst (train (plain_runtime small_corpus_sklearn [] 0) untrained
            ["how are you"; "what do you do"]
            ["I'm doing great!"; "I write code"]))
  = [("how are you", "I'm doing great!"); ("what do you do", "I write code")]
  /\ models_loaded
       (fst (train (plain_runtime small_corpus_sklearn [] 0) untrained
               ["how are you"; "what do you do"]
               ["I'm doing great!"; "I write code"]))
     = true
  /\ load_models
       (init (model_dir
                (fst (train (plain_runtime small_corpus_sklearn [] 0)
                        untrained
                        ["how are you"; "what do you do"]
                        ["I'm doing great!"; "I write code"]))))
     = (fst (train (plain_runtime small_corpus_sklearn [] 0) untrained
               ["how are you"; "what do you do"]
               ["I'm doing great!"; "I write code"]),
        true).
Proof.
  exact (@train_then_load small_corpus_sklearn
           (plain_runtime small_corpus_sklearn [] 0) untrained
           (fst (train (plain_runtime small_corpus_sklearn [] 0) untrained
                   ["how are you"; "what do you do"]
                   ["I'm doing great!"; "I write code"]))
           ["how are you"; "what do you do"]
           ["I'm doing great!"; "I write code"] eq_refl).
Defined.

Lemma train_forgets_prior_state_witness :
  fst (train (plain_runtime small_corpus_sklearn [] 0) untrained
         ["how are you"] ["fine"])
  = fst (train (plain_runtime small_corpus_sklearn [] 0)
           (trained [("hello", "yo")] (Some (style_of "casual" "casual")))
           ["how are you"] ["fine"]).
Proof.
  apply (@train_forgets_prior_state small_corpus_sklearn
           (plain_runtime small_corpus_sklearn [] 0)).
  reflexivity.
Defined.

Lemma train_interrupted_witness :
  model_dir
    (fst (train (plain_runtime strict_sklearn [] 0)
            (@init strict_sklearn (@empty_dir strict_sklearn))
            ["   "] ["Hm."]))
  = @empty_dir strict_sklearn
  /\ models_loaded
       (fst (train (plain_runtime strict_sklearn [] 0)
               (@init strict_sklearn (@empty_dir strict_sklearn))
               ["   "] ["Hm."]))
     = false
  /\ conversations
       (fst (train (plain_runtime strict_sklearn [] 0)
               (@init strict_sklearn (@empty_dir strict_sklearn))
               ["   "] ["Hm."]))
     = [("   ", "Hm.")].
Proof.
  destruct (@train_interrupted strict_sklearn
              (plain_runtime strict_sklearn [] 0)
              (@init strict_sklearn (@empty_dir strict_sklearn))
              (fst (train (plain_runtime strict_sklearn [] 0)
                      (@init strict_sklearn (@empty_dir strict_sklearn))
                      ["   "] ["Hm."]))
              ["   "] ["Hm."] eq_refl)
    as [Hdir [Hflag [Hcorpus _]]].
  now conjuncts.
Defined.

Lemma learn_then_load_witness :
  load_models
    (init (model_dir
             (learn_from_chat (in_step [("how are you", "fine")])
                "what do you do" "I write code" true)))
  = (learn_from_chat (in_step [("how are you", "fine")])
       "what do you do" "I write code" true,
     true)
  /\ conversations
       (learn_from_chat (in_step [("how are you", "fine")])
          "what do you do" "I write code" true)
     = [("how are you", "fine"); ("what do you do", "I write code")]
  /\ user_style_joblib
       (model_dir
          (learn_from_chat (in_step [("how are you", "fine")])
             "what do you do" "I write code" true))
     = Some None.
Proof.
  apply (@learn_then_load strict_sklearn (in_step [("how are you", "fine")])
           "what do you do" "I write code"
           ["how are you"] ["how are you"; "what do you do"] 1 2 2);
    reflexivity.
Defined.

Lemma learn_refit_failure_forgotten_on_reload_witness :
  conversations (learn_from_chat (in_step [(" ", "Hm.")]) "  " "Yes?" true)
  = [(" ", "Hm."); ("  ", "Yes?")]
  /\ conversations
       (fst (load_models
               (init (model_dir
                        (learn_from_chat (in_step [(" ", "Hm.")])
                           "  " "Yes?" true)))))
     = [(" ", "Hm.")].
Proof.
  apply (@learn_refit_failure_forgotten_on_reload strict_sklearn
           (in_step [(" ", "Hm.")]) "  " "Yes?" [" "] [" "; "  "] 1);
    reflexivity.
Defined.

Lemma analyze_user_style_mode_witness :
  exists styles,
    user_style
      (analyze_user_style (plain_runtime small_corpus_sklearn [] 0)
         untrained ["Great!"; "ok."; "Wow! Nice!"])
    = Some styles
    /\ punctuation_style styles = "excited"
    /\ In (formality_level styles) ["formal"; "casual"; "neutral"].
Proof.
  eexists. split; [reflexivity|].
  destruct (@analyze_user_style_mode small_corpus_sklearn
              (plain_runtime small_corpus_sklearn [] 0) untrained
              ["Great!"; "ok."; "Wow! Nice!"]) as [_ Hstyles].
  - intros class. apply nodup_In.
  - split; [reflexivity|].
    eapply Hstyles. reflexivity.
Defined.

Lemma analyze_user_style_common_words_witness :
  exists styles,
    user_style
      (analyze_user_style (plain_runtime small_corpus_sklearn [] 0)
         untrained ["the cat and the dog"; "The end"])
    = Some styles
    /\ common_words styles
       = [("the", 3); ("cat", 1); ("and", 1); ("dog", 1); ("end", 1)]
    /\ List.length (common_words styles) <= 10.
Proof.
  eexists. split; [reflexivity|]. split; [reflexivity|].
  eapply (@analyze_user_style_common_words small_corpus_sklearn
            (plain_runtime small_corpus_sklearn [] 0) untrained
            ["the cat and the dog"; "The end"]).
  reflexivity.
Defined.

Lemma collect_keeps_pairs_witness :
  DataCollector.init
    (DataCollector.data_file
       (collect [("2024-01-01 10:00:00", "how are you", "fine")]
                (DataCollector.init None)))
  = collect [("2024-01-01 10:00:00", "how are you", "fine")]
            (DataCollector.init None).
Proof.
  apply collect_keeps_pairs. discriminate.
Defined.
